(** * jobhackai-site: the ATS test-suite converters

    A shallow embedding of [docs/Test Resumes/ATS-Test-Suite/generate_docx.py]
    and [generate_pdf.py]: the line heuristics that decide how a resume line
    is formatted, the two conversion loops and the two batch drivers.

    Python strings are sequences of Unicode code points.  The character
    tables of the interpreter (upper/lower/title case, white space, the
    lower-casing of a string) are not part of the repository: they are the
    operations of the class [UnicodeData], and every general theorem holds
    for all tables.  The instance [latin1] gives the tables on the Latin-1
    range and is used to run concrete lines.

    The two document libraries are not part of the repository either.  What
    they raise for a text they refuse ([p.add_run(text)] of python-docx,
    [Paragraph(text, style)] of reportlab) is an operation of the classes
    [DocxLibrary] and [PdfLibrary], and the files, the saving and the
    loading of documents are the operations of the class [Host]: every
    general theorem holds for all libraries and all hosts. *)

From Stdlib Require Import List NArith Arith Bool Lia String Ascii DecimalString.
From ExtLib Require Import Structures.Monad Structures.MonadExc
  Structures.MonadState Structures.MonadTrans
  Data.Monads.EitherMonad Data.Monads.StateMonad.
Import ListNotations.
Import MonadNotation.
Local Open Scope monad_scope.
Local Open Scope bool_scope.

Set Implicit Arguments.

(** ** Python built-ins *)

Module Py.

(** A [str] is a list of code points. *)
Definition char := N.
Definition str := list char.

(** A literal of the source that is pure ASCII. *)
Definition lit (s : string) : str :=
  List.map N_of_ascii (list_ascii_of_string s).

(** The Unicode character database behind [str.isupper], [str.strip] and
    [str.lower]. *)
Class UnicodeData := {
  Py_UNICODE_ISUPPER : char -> bool;
  Py_UNICODE_ISLOWER : char -> bool;
  Py_UNICODE_ISTITLE : char -> bool;
  Py_UNICODE_ISSPACE : char -> bool;
  (** [s.lower()]: the full lower-casing of a string *)
  lower : str -> str
}.

(** The exceptions a statement can raise ([except Exception] catches all of
    them).  [IndexError] is what [line[0]] raises on the empty string;
    [Error] stands for every exception of the libraries and of the operating
    system, with the text [str(e)] prints. *)
Inductive Exception :=
| IndexError
| Error (msg : str).

Definition str_of_exception (e : Exception) : str :=
  match e with
  | IndexError => lit "string index out of range"
  | Error msg => msg
  end.

(** Pure statements that may raise. *)
Definition Exc := sum Exception.

Section Builtins.
Context {U : UnicodeData}.

(** [len(s)] *)
Definition len (s : str) : nat := List.length s.

(** [not s] is [True] exactly for the empty string. *)
Definition truthy (s : str) : bool :=
  match s with [] => false | _ :: _ => true end.

(** [s[0]] *)
Definition getitem0 (s : str) : Exc char :=
  match s with
  | [] => raise IndexError
  | c :: _ => ret c
  end.

(** [s.startswith(prefix)] *)
Fixpoint startswith (s prefix : str) : bool :=
  match prefix, s with
  | [], _ => true
  | _ :: _, [] => false
  | p :: prefix', c :: s' => (c =? p)%N && startswith s' prefix'
  end.

(** [sub in s] *)
Fixpoint contains (sub s : str) : bool :=
  startswith s sub ||
  match s with
  | [] => false
  | _ :: s' => contains sub s'
  end.

(** [s.isupper()], as [unicode_isupper_impl] computes it: a one-character
    string is tested directly, the empty string is not upper, and otherwise
    no character may be lower or title case and one must be upper case. *)
Definition isupper (s : str) : bool :=
  match s with
  | [] => false
  | [c] => Py_UNICODE_ISUPPER c
  | _ =>
      negb (existsb (fun c => Py_UNICODE_ISLOWER c || Py_UNICODE_ISTITLE c) s)
      && existsb Py_UNICODE_ISUPPER s
  end.

(** [s.lstrip()] *)
Fixpoint lstrip (s : str) : str :=
  match s with
  | [] => []
  | c :: s' => if Py_UNICODE_ISSPACE c then lstrip s' else s
  end.

(** [s.rstrip()] *)
Definition rstrip (s : str) : str := rev (lstrip (rev s)).

(** [s.strip()] *)
Definition strip (s : str) : str := rstrip (lstrip s).

(** [s.lstrip(chars)] *)
Fixpoint lstrip_chars (chars s : str) : str :=
  match s with
  | [] => []
  | c :: s' =>
      if existsb (N.eqb c) chars then lstrip_chars chars s' else s
  end.

(** [s.split(sep)] for a separator of one character (the source splits on
    ['\n'] and on ['|']).  Empty segments are kept. *)
Fixpoint split (sep : char) (s : str) : list str :=
  match s with
  | [] => [[]]
  | c :: s' =>
      if (c =? sep)%N then [] :: split sep s'
      else match split sep s' with
           | seg :: segs => (c :: seg) :: segs
           | [] => [[c]]
           end
  end.

(** [s.replace(old, new)]: every occurrence of [old], left to right, without
    overlap.  [skip] counts the characters of a match still to be dropped. *)
Fixpoint replace_from (skip : nat) (old new s : str) : str :=
  match s with
  | [] => []
  | c :: s' =>
      match skip with
      | S k => replace_from k old new s'
      | O =>
          if startswith s old
          then new ++ replace_from (len old - 1) old new s'
          else c :: replace_from 0 old new s'
      end
  end.

Definition replace (old new s : str) : str :=
  match old with
  | [] => new ++ flat_map (fun c => c :: new) s
  | _ :: _ => replace_from 0 old new s
  end.

(** [a or b] and [a and b] on expressions that may raise: the right operand
    is evaluated only when the left one does not decide. *)
Definition or_ (a b : Exc bool) : Exc bool :=
  x <- a ;; if (x : bool) then ret true else b.

Definition and_ (a b : Exc bool) : Exc bool :=
  x <- a ;; if (x : bool) then b else ret false.

End Builtins.

(** The tables on the Latin-1 range (U+0000 to U+00FF), with all the white
    space of Unicode; every code point above U+00FF is taken as caseless. *)
Definition latin1_isupper (c : char) : bool :=
  ((65 <=? c) && (c <=? 90) ||
   (192 <=? c) && (c <=? 222) && negb (c =? 215))%N.

Definition latin1_islower (c : char) : bool :=
  ((97 <=? c) && (c <=? 122) ||
   (223 <=? c) && (c <=? 255) && negb (c =? 247) ||
   (c =? 170) || (c =? 181) || (c =? 186))%N.

Definition latin1_isspace (c : char) : bool :=
  ((9 <=? c) && (c <=? 13) || (28 <=? c) && (c <=? 32) ||
   (c =? 133) || (c =? 160) || (c =? 5760) ||
   (8192 <=? c) && (c <=? 8202) || (c =? 8232) || (c =? 8233) ||
   (c =? 8239) || (c =? 8287) || (c =? 12288))%N.

Definition latin1_tolower (c : char) : char :=
  if latin1_isupper c then (c + 32)%N else c.

#[export] Instance latin1 : UnicodeData := {
  Py_UNICODE_ISUPPER := latin1_isupper;
  Py_UNICODE_ISLOWER := latin1_islower;
  Py_UNICODE_ISTITLE := fun _ => false;
  Py_UNICODE_ISSPACE := latin1_isspace;
  lower := List.map latin1_tolower
}.

End Py.

Import Py.

(** ** python-docx: the document under construction *)

Module Docx.

(** [WD_ALIGN_PARAGRAPH]; only [CENTER] (value 1) is ever assigned. *)
Inductive Alignment := CENTER.

(** A run: its text, [run.bold] ([None] until assigned) and
    [run.font.size] in points. *)
Record Run := mkRun {
  text : str;
  bold : option bool;
  font_size : option nat
}.

(** A paragraph: [p.style] ([None] is the default style), [p.alignment],
    its runs, and the attribute [space_after] the converter sets on the
    paragraph object, in points. *)
Record Paragraph := mkParagraph {
  style : option str;
  alignment : option Alignment;
  runs : list Run;
  space_after : option nat
}.

(** The body of a document; the style table is not modelled, and the
    style ['List Bullet'] is taken to exist, as it does in the default
    template. *)
Definition Document := list Paragraph.

(** The library is not part of the repository.  What [p.add_run(text)]
    raises for a text its XML layer refuses is an operation of the class
    [DocxLibrary]: [None] where the text is accepted. *)
Class DocxLibrary := {
  add_run_raises : str -> option Exception
}.

(** A library that accepts every text. *)
Definition accepts_all : DocxLibrary :=
  {| add_run_raises := fun _ => None |}.

(** A library that refuses what XML refuses: the control characters other
    than the tab, the line feed and the carriage return, the surrogates and
    the two last code points of the basic plane. *)
Definition xml_char (c : char) : bool :=
  ((c =? 9) || (c =? 10) || (c =? 13) ||
   (32 <=? c) && (c <=? 55295) || (57344 <=? c) && (c <=? 65533) ||
   (65536 <=? c) && (c <=? 1114111))%N.

Definition xml_strict : DocxLibrary :=
  {| add_run_raises := fun t =>
       if forallb xml_char t then None
       else Some (Error (lit "All strings must be XML compatible: Unicode or ASCII, no NULL bytes or control characters")) |}.

(** Statements that mutate the document and may raise. *)
Definition DocM := stateT Document Exc.
#[export] Existing Instance Monad_stateT.

(** Handles: a paragraph is named by its index in the body, a run by its
    paragraph and its index there. *)
Definition ParagraphRef := nat.
Definition RunRef := (nat * nat)%type.

Fixpoint alter {A} (f : A -> A) (n : nat) (l : list A) : list A :=
  match l, n with
  | [], _ => []
  | x :: l', O => f x :: l'
  | x :: l', S n' => x :: alter f n' l'
  end.

(** [doc.add_paragraph()] *)
Definition add_paragraph : DocM ParagraphRef :=
  doc <- get ;;
  put (doc ++ [mkParagraph None None [] None]) ;;
  ret (List.length doc).

Definition update (p : ParagraphRef) (f : Paragraph -> Paragraph)
  : DocM unit :=
  doc <- get ;; put (alter f p doc).

(** [p.alignment = a] *)
Definition set_alignment (p : ParagraphRef) (a : Alignment) : DocM unit :=
  update p (fun q => mkParagraph (style q) (Some a) (runs q) (space_after q)).

(** [p.style = name] *)
Definition set_style (p : ParagraphRef) (name : str) : DocM unit :=
  update p (fun q =>
    mkParagraph (Some name) (alignment q) (runs q) (space_after q)).

(** [p.space_after = Pt(n)] *)
Definition set_space_after (p : ParagraphRef) (n : nat) : DocM unit :=
  update p (fun q => mkParagraph (style q) (alignment q) (runs q) (Some n)).

(** [p.add_run(text)] *)
Definition add_run {L : DocxLibrary} (p : ParagraphRef) (t : str)
  : DocM RunRef :=
  match add_run_raises t with
  | Some e => raise e
  | None =>
      doc <- get ;;
      put (alter (fun q => mkParagraph (style q) (alignment q)
                             (runs q ++ [mkRun t None None]) (space_after q))
             p doc) ;;
      ret (p, List.length (runs (nth p doc (mkParagraph None None [] None))))
  end.

Definition update_run (r : RunRef) (f : Run -> Run) : DocM unit :=
  update (fst r) (fun q =>
    mkParagraph (style q) (alignment q) (alter f (snd r) (runs q))
      (space_after q)).

(** [run.bold = b] *)
Definition set_bold (r : RunRef) (b : bool) : DocM unit :=
  update_run r (fun x => mkRun (text x) (Some b) (font_size x)).

(** [run.font.size = Pt(n)] *)
Definition set_font_size (r : RunRef) (n : nat) : DocM unit :=
  update_run r (fun x => mkRun (text x) (bold x) (Some n)).

(** [para.text]: the text of the runs, joined. *)
Definition paragraph_text (q : Paragraph) : str :=
  flat_map text (runs q).

End Docx.

Import Docx.

(** ** reportlab: the story of a PDF *)

Module Reportlab.

(** [TA_LEFT] and [TA_CENTER]. *)
Inductive TextAlign := TA_LEFT | TA_CENTER.

(** The paragraph styles the converter uses: the three it builds once
    ([CustomHeader], [CustomNormal], [CustomBold]), the one it builds per
    paragraph ([CustomBoldCenter], with its font size and alignment) and the
    two of the sample style sheet the fallback uses. *)
Inductive ParagraphStyle :=
| CustomHeader
| CustomNormal
| CustomBold
| CustomBoldCenter (fontSize : nat) (align : TextAlign)
| Heading2
| Normal.

Inductive Flowable :=
| Spacer (width height : nat)
| Paragraph (text : str) (style : ParagraphStyle).

Definition Story := list Flowable.

(** Statements that append to the story and may raise. *)
Definition StoryM := stateT Story Exc.

(** [story.append(x)] *)
Definition append (x : Flowable) : StoryM unit :=
  story <- get ;; put (story ++ [x]).

(** The library is not part of the repository.  [Paragraph(text, style)]
    parses the text as markup; what it raises for a text it cannot parse is
    an operation of the class [PdfLibrary]: [None] where the text is
    parsed. *)
Class PdfLibrary := {
  paragraph_raises : str -> option Exception
}.

(** A library that parses every text. *)
Definition parses_all : PdfLibrary :=
  {| paragraph_raises := fun _ => None |}.

(** [Paragraph(text, style)] *)
Definition new_paragraph {R : PdfLibrary} (text : str)
  (style : ParagraphStyle) : StoryM Flowable :=
  match paragraph_raises text with
  | Some e => raise e
  | None => ret (Paragraph text style)
  end.

End Reportlab.

Import Reportlab.

(** ** The host: files, libraries and standard output *)

Module Host.

(** What a run does to the outside, in order. *)
Inductive Event :=
| Glob (pattern : str)
| Print (msg : str)
| ReadText (file : str)
| SaveDocx (file : str) (doc : Document)
| LoadDocx (file : str)
| BuildPdf (file : str) (story : Story).

Definition Trace := list Event.

(** The outcome of each call to the outside, which may depend on everything
    that happened before: [sorted(glob.glob(pattern))], [open(file, 'r',
    encoding='utf-8')] followed by [read()], [doc.save(file)],
    [Document(file)] and [SimpleDocTemplate(file, ...).build(story)]. *)
Class Host := {
  sorted_glob : Trace -> str -> list str;
  read_text : Trace -> str -> Exc str;
  docx_save : Trace -> str -> Document -> Exc unit;
  docx_load : Trace -> str -> Exc Document;
  pdf_build : Trace -> str -> Story -> Exc unit
}.

(** Statements with effects on the outside: an exception leaves the trace
    as it is at the point of the raise. *)
Definition IO := eitherT Exception (state Trace).

Definition run {A} (c : IO A) (tr : Trace) : Exc A * Trace :=
  runState (unEitherT c) tr.

Definition call {A} (ev : Event) (outcome : Trace -> Exc A) : IO A :=
  mkEitherT (mkState (fun tr => (outcome tr, tr ++ [ev]))).

(** A pure statement that may raise. *)
Definition pure {A} (x : Exc A) : IO A := mkEitherT (ret x).

(** [print(msg)] *)
Definition print (msg : str) : IO unit :=
  call (Print msg) (fun _ => inr tt).

(** [str(n)] for a number. *)
Definition str_of_nat (n : nat) : str :=
  lit (NilEmpty.string_of_uint (Nat.to_uint n)).


End Host.

Import Host.

(** ** generate_docx.py *)

Module GenerateDocx.

(** The role a line is formatted as.  The source has no such type: each
    constructor names one branch of the formatting chain of
    [create_docx_from_text], and the name/contact branch is split by the two
    operands of its test: [Title] where [i == 0 and len(line) < 100] holds,
    [Contact] where only [is_contact] does. *)
Inductive Role :=
| Title | Contact | SectionHeader | JobTitle | Bullet | Body | Blank.

Section Converter.
Context {U : UnicodeData} {L : DocxLibrary}.

(** ['EDUCACIÓN'], ['ubicación'] and the bullet glyph ['•']. *)
Definition EDUCACION : str := lit "EDUCACI" ++ [211%N] ++ lit "N".
Definition ubicacion : str := lit "ubicaci" ++ [243%N] ++ lit "n".
Definition bullet_glyph : str := [8226%N].

(** Lines 41-59: the expression bound to [is_header]. *)
Definition is_header (line : str) : Exc bool :=
  or_ (ret (isupper line))
 (or_ (and_ (ret (len line <? 50))
      (and_ (c <- getitem0 line ;; ret (isupper [c]))
            (ret (negb (contains (lit "|") line)))))
 (or_ (ret (startswith line (lit "EXPERIENCE")))
 (or_ (ret (startswith line (lit "EDUCATION")))
 (or_ (ret (startswith line (lit "SKILLS")))
 (or_ (ret (startswith line (lit "EXPERIENCIA")))
 (or_ (ret (startswith line EDUCACION))
 (or_ (ret (startswith line (lit "HABILIDADES")))
 (or_ (ret (startswith line (lit "WORK EXPERIENCE")))
 (or_ (ret (startswith line (lit "CAREER HISTORY")))
 (or_ (ret (startswith line (lit "PROFESSIONAL SUMMARY")))
 (or_ (ret (startswith line (lit "TECHNICAL SKILLS")))
 (or_ (ret (startswith line (lit "CERTIFICATIONS")))
 (or_ (ret (startswith line (lit "PROJECTS")))
 (or_ (ret (startswith line (lit "PUBLICATIONS")))
 (or_ (ret (startswith line (lit "AWARDS")))
      (ret (startswith line (lit "LANGUAGES")))))))))))))))))).

(** Lines 62-66: the expression bound to [is_contact]. *)
Definition is_contact (i : nat) (line : str) : bool :=
  (i <? 3) &&
  (contains (lit "@") line || contains (lit "phone") (lower line) ||
   contains (lit "tel") (lower line) ||
   contains (lit "linkedin") (lower line) ||
   contains (lit "location") (lower line) ||
   contains ubicacion (lower line)).

(** Line 69: the expression bound to [is_job_title]. *)
Definition is_job_title (line : str) : bool :=
  contains (lit "|") line && (2 <=? List.length (split 124%N line)).

(** Line 72: the expression bound to [is_bullet]. *)
Definition is_bullet (line : str) : bool :=
  startswith line bullet_glyph || startswith line (lit "-") ||
  startswith line (lit "*").

(** Lines 33-102: the body of the loop over [enumerate(lines)].  It adds one
    paragraph to the document and answers the role of the branch taken. *)
Definition process_line (i : nat) (line : str) : DocM Role :=
  let line := strip line in
  if negb (truthy line) then
    _ <- add_paragraph ;;
    ret Blank
  else
    header <- lift (is_header line) ;;
    let contact := is_contact i line in
    let job_title := is_job_title line in
    let bullet := is_bullet line in
    p <- add_paragraph ;;
    if contact || ((i =? 0) && (len line <? 100)) then
      set_alignment p CENTER ;;
      run <- add_run p line ;;
      set_bold run true ;;
      set_font_size run (if i =? 0 then 14 else 11) ;;
      ret (if (i =? 0) && (len line <? 100) then Title else Contact)
    else if header then
      run <- add_run p line ;;
      set_bold run true ;;
      set_font_size run 12 ;;
      set_space_after p 6 ;;
      ret SectionHeader
    else if job_title then
      run <- add_run p line ;;
      set_bold run true ;;
      set_space_after p 3 ;;
      ret JobTitle
    else if bullet then
      set_style p (lit "List Bullet") ;;
      _ <- add_run p (lstrip_chars (bullet_glyph ++ lit "-* ") line) ;;
      set_space_after p 3 ;;
      ret Bullet
    else
      _ <- add_run p line ;;
      set_space_after p 3 ;;
      ret Body.

(** Lines 32-102: [for i, line in enumerate(lines)], from index [i]. *)
Fixpoint for_lines (i : nat) (lines : list str) : DocM (list Role) :=
  match lines with
  | [] => ret []
  | line :: rest =>
      r <- process_line i line ;;
      rs <- for_lines (S i) rest ;;
      ret (r :: rs)
  end.

(** Lines 22-102: the document built from the text of a file, with the
    roles of its lines. *)
Definition convert_text (content : str) : Exc (list Role * Document) :=
  runStateT (for_lines 0 (split 10%N content)) [].

(** Line 15: the name of the output file. *)
Definition docx_file_name (text_file : str) : str :=
  replace (lit ".txt") (lit ".docx") text_file.

End Converter.

(** The role the converter gives to [line] at position [i]: the branch the
    loop body takes on a new document.  The calls into python-docx do not
    bear on the branch, so the body is run with a library that accepts
    every text. *)
Definition classify {U : UnicodeData} (line : str) (i : nat) : Exc Role :=
  evalStateT (process_line (L := accepts_all) i line) [].

(** The paragraph the loop body asks python-docx for, for [line] at
    position [i]. *)
Definition paragraph_of {U : UnicodeData} (line : str) (i : nat)
  : Exc Document :=
  execStateT (process_line (L := accepts_all) i line) [].

Section Script.
Context {U : UnicodeData} {L : DocxLibrary} {H : Host}.

(** Lines 13-107. *)
Definition create_docx_from_text (text_file : str) : IO str :=
  let docx_file := docx_file_name text_file in
  content <- call (ReadText text_file) (fun tr => read_text tr text_file) ;;
  built <- pure (convert_text content) ;;
  let doc := snd built in
  call (SaveDocx docx_file doc) (fun tr => docx_save tr docx_file doc) ;;
  print (lit "Created: " ++ docx_file) ;;
  ret docx_file.

(** Lines 120-123: the statement guarded by [try]. *)
Definition convert_one (text_file : str) : IO unit :=
  catch (_ <- create_docx_from_text text_file ;; ret tt)
        (fun e => print (lit "Error converting " ++ text_file ++ lit ": "
                           ++ str_of_exception e)).

(** Lines 119-123. *)
Fixpoint for_files (text_files : list str) : IO unit :=
  match text_files with
  | [] => ret tt
  | text_file :: rest => convert_one text_file ;; for_files rest
  end.

(** Lines 109-123. *)
Definition main : IO unit :=
  text_files <- call (Glob (lit "resume-*.txt"))
                  (fun tr => inr (sorted_glob tr (lit "resume-*.txt"))) ;;
  match text_files with
  | [] => print (lit "No resume text files found!")
  | _ :: _ =>
      print (lit "Found " ++ str_of_nat (List.length text_files)
               ++ lit " text files to convert...") ;;
      for_files text_files
  end.

End Script.
End GenerateDocx.

(** ** generate_pdf.py *)

Module GeneratePdf.

(** The branch of the style chain of [create_pdf_from_docx] a paragraph
    takes, named after the comments of the source. *)
Inductive Branch :=
| BlankSpacer
| SectionHeaderStyle
| NameOrJobTitle
| BulletPoint
| RegularText.

Section Converter.
Context {U : UnicodeData} {R : PdfLibrary}.

(** Lines 20-26. *)
Definition clean_text (text : str) : str :=
  let text := replace [8226%N] (lit "-") text in
  let text := replace [8212%N] (lit "-") text in
  let text := replace [8211%N] (lit "-") text in
  text.

(** Lines 28-48. *)
Definition is_header (line : str) : Exc bool :=
  or_ (ret (isupper line))
 (or_ (and_ (ret (len line <? 50))
      (and_ (c <- getitem0 line ;; ret (isupper [c]))
            (ret (negb (contains (lit "|") line)))))
 (or_ (ret (startswith line (lit "EXPERIENCE")))
 (or_ (ret (startswith line (lit "EDUCATION")))
 (or_ (ret (startswith line (lit "SKILLS")))
 (or_ (ret (startswith line (lit "EXPERIENCIA")))
 (or_ (ret (startswith line (lit "EDUCACI" ++ [211%N] ++ lit "N")))
 (or_ (ret (startswith line (lit "HABILIDADES")))
 (or_ (ret (startswith line (lit "WORK EXPERIENCE")))
 (or_ (ret (startswith line (lit "CAREER HISTORY")))
 (or_ (ret (startswith line (lit "PROFESSIONAL SUMMARY")))
 (or_ (ret (startswith line (lit "TECHNICAL SKILLS")))
 (or_ (ret (startswith line (lit "CERTIFICATIONS")))
 (or_ (ret (startswith line (lit "PROJECTS")))
 (or_ (ret (startswith line (lit "PUBLICATIONS")))
 (or_ (ret (startswith line (lit "AWARDS")))
      (ret (startswith line (lit "LANGUAGES")))))))))))))))))).

(** The truth value of [first_run.bold], which is [None], [True] or
    [False]. *)
Definition truth (b : option bool) : bool :=
  match b with Some true => true | _ => false end.

(** Lines 111-151: the body of the loop over [doc.paragraphs].  It appends
    one flowable to the story and answers the branch taken.  ([is_center]
    and [is_large] are assigned and never read.) *)
Definition process_paragraph (para : Docx.Paragraph) : StoryM Branch :=
  let text := clean_text (strip (paragraph_text para)) in
  if negb (truthy text) then
    append (Spacer 1 6) ;;
    ret BlankSpacer
  else
    let is_bold :=
      match runs para with
      | first_run :: _ => truth (bold first_run)
      | [] => false
      end in
    header <- lift (and_ (is_header text) (ret (negb is_bold))) ;;
    if header then
      p <- new_paragraph text CustomHeader ;;
      append p ;;
      ret SectionHeaderStyle
    else
      name <- lift
        (and_ (ret is_bold)
        (and_ (ret (len text <? 100))
        (or_ (ret (contains (lit "@") text))
        (or_ (ret (contains (lit "|") text))
             (c <- getitem0 text ;; ret (isupper [c])))))) ;;
      if name then
        let centred :=
          contains (lit "@") text || negb (contains (lit "|") text) in
        p <- new_paragraph text
               (CustomBoldCenter (if centred then 12 else 10)
                                 (if centred then TA_CENTER else TA_LEFT)) ;;
        append p ;;
        ret NameOrJobTitle
      else if startswith text (lit "-") || startswith text (lit "*") then
        p <- new_paragraph text CustomNormal ;;
        append p ;;
        ret BulletPoint
      else
        p <- new_paragraph text
               (if is_bold then CustomBold else CustomNormal) ;;
        append p ;;
        ret RegularText.

(** Lines 110-151: [for para in doc.paragraphs]. *)
Fixpoint for_paragraphs (paras : list Docx.Paragraph) : StoryM (list Branch) :=
  match paras with
  | [] => ret []
  | para :: rest =>
      b <- process_paragraph para ;;
      bs <- for_paragraphs rest ;;
      ret (b :: bs)
  end.

(** Lines 181-190: the body of the loop of [create_simple_pdf_from_text]. *)
Definition process_text_line (line : str) : StoryM unit :=
  let line := clean_text (strip line) in
  if negb (truthy line) then
    append (Spacer 1 6)
  else
    header <- lift (is_header line) ;;
    p <- (if header then new_paragraph line Heading2
          else new_paragraph line Normal) ;;
    append p.

Fixpoint for_text_lines (lines : list str) : StoryM unit :=
  match lines with
  | [] => ret tt
  | line :: rest => process_text_line line ;; for_text_lines rest
  end.

(** Line 52 and line 162: the names of the output file and of the text file
    of the fallback. *)
Definition pdf_file_name (docx_file : str) : str :=
  replace (lit ".docx") (lit ".pdf") docx_file.

Definition fallback_text_file (docx_file : str) : str :=
  replace (lit ".docx") (lit ".txt") docx_file.

End Converter.

(** The branch the converter takes for one paragraph of a DOCX file.  The
    parsing of the text by reportlab does not bear on the branch, so the
    body is run with a library that parses every text. *)
Definition classify_paragraph {U : UnicodeData} (para : Docx.Paragraph)
  : Exc Branch :=
  evalStateT (process_paragraph (R := parses_all) para) [].

Section Script.
Context {U : UnicodeData} {R : PdfLibrary} {H : Host}.

(** [f.readlines()]: the lines of the text, each with its line end. *)
Definition readlines (content : str) : list str :=
  let segs := split 10%N content in
  List.map (fun seg => seg ++ [10%N]) (removelast segs)
  ++ match last segs [] with [] => [] | c :: seg => [c :: seg] end.

(** Lines 168-193. *)
Definition create_simple_pdf_from_text (text_file pdf_file : str) : IO unit :=
  content <- call (ReadText text_file) (fun tr => read_text tr text_file) ;;
  let lines := readlines content in
  story <- pure (execStateT (for_text_lines lines) []) ;;
  call (BuildPdf pdf_file story) (fun tr => pdf_build tr pdf_file story) ;;
  print (lit "Created (from text): " ++ pdf_file).

(** Lines 55-156: the statements guarded by the outer [try]. *)
Definition convert_docx (docx_file pdf_file : str) : IO (option str) :=
  doc <- call (LoadDocx docx_file) (fun tr => docx_load tr docx_file) ;;
  story <- pure (execStateT (for_paragraphs doc) []) ;;
  call (BuildPdf pdf_file story) (fun tr => pdf_build tr pdf_file story) ;;
  print (lit "Created: " ++ pdf_file) ;;
  ret (Some pdf_file).

(** Lines 158-166: the handler of the outer [try]. *)
Definition fallback (docx_file pdf_file : str) (e : Exception)
  : IO (option str) :=
  print (lit "Error converting " ++ docx_file ++ lit " to PDF: "
           ++ str_of_exception e) ;;
  catch (let text_file := fallback_text_file docx_file in
         create_simple_pdf_from_text text_file pdf_file)
        (fun e2 => print (lit "Fallback also failed: "
                            ++ str_of_exception e2)) ;;
  ret None.

(** Lines 50-166. *)
Definition create_pdf_from_docx (docx_file : str) : IO (option str) :=
  let pdf_file := pdf_file_name docx_file in
  catch (convert_docx docx_file pdf_file) (fallback docx_file pdf_file).

(** Lines 206-209: the statement guarded by [try]. *)
Definition convert_one (docx_file : str) : IO unit :=
  catch (_ <- create_pdf_from_docx docx_file ;; ret tt)
        (fun e => print (lit "Error with " ++ docx_file ++ lit ": "
                           ++ str_of_exception e)).

(** Lines 205-209. *)
Fixpoint for_files (docx_files : list str) : IO unit :=
  match docx_files with
  | [] => ret tt
  | docx_file :: rest => convert_one docx_file ;; for_files rest
  end.

(** Lines 195-209. *)
Definition main : IO unit :=
  docx_files <- call (Glob (lit "resume-*.docx"))
                  (fun tr => inr (sorted_glob tr (lit "resume-*.docx"))) ;;
  match docx_files with
  | [] => print (lit "No DOCX files found!")
  | _ :: _ =>
      print (lit "Found " ++ str_of_nat (List.length docx_files)
               ++ lit " DOCX files to convert...") ;;
      for_files docx_files
  end.

End Script.
End GeneratePdf.

(** ** Specification-side definitions *)

Import GenerateDocx.

Section Chains.
Context {U : UnicodeData}.

(** The role of a stripped, non-empty line, read off the formatting chain
    of [process_line] once the value [header] of [is_header] is known. *)
Definition role_of_chain (i : nat) (line : str) (header : bool) : Role :=
  if is_contact i line || ((i =? 0) && (len line <? 100)) then
    if (i =? 0) && (len line <? 100) then Title else Contact
  else if header then SectionHeader
  else if is_job_title line then JobTitle
  else if is_bullet line then Bullet
  else Body.

(** The paragraph of each role at position [i], as the branches of
    [process_line] leave it: the run of the name/contact branch has 14 pt
    at position 0 and 11 pt elsewhere. *)
Definition paragraph_of_role (r : Role) (i : nat) (line : str)
  : Docx.Paragraph :=
  match r with
  | Blank => mkParagraph None None [] None
  | Title =>
      mkParagraph None (Some CENTER) [mkRun line (Some true) (Some 14)] None
  | Contact =>
      mkParagraph None (Some CENTER)
        [mkRun line (Some true) (Some (if i =? 0 then 14 else 11))] None
  | SectionHeader =>
      mkParagraph None None [mkRun line (Some true) (Some 12)] (Some 6)
  | JobTitle => mkParagraph None None [mkRun line (Some true) None] (Some 3)
  | Bullet =>
      mkParagraph (Some (lit "List Bullet")) None
        [mkRun (lstrip_chars (bullet_glyph ++ lit "-* ") line) None None]
        (Some 3)
  | Body => mkParagraph None None [mkRun line None None] (Some 3)
  end.

(** The text [process_line] hands to [add_run] in the branch of each
    role. *)
Definition run_text (r : Role) (line : str) : str :=
  match r with
  | Bullet => lstrip_chars (bullet_glyph ++ lit "-* ") line
  | _ => line
  end.

(** The value of [is_header] where it does not raise. *)
Definition header_value (line : str) : bool :=
  match is_header line with inr b => b | inl _ => false end.

(** The role and the paragraph of a raw line at position [i]. *)
Definition role_at (line : str) (i : nat) : Role :=
  if truthy (strip line)
  then role_of_chain i (strip line) (header_value (strip line))
  else Blank.

Definition paragraph_at (line : str) (i : nat) : Docx.Paragraph :=
  paragraph_of_role (role_at line i) i (strip line).

(** What python-docx raises for a raw line at position [i]: a blank line
    gets no run, and every other line one run. *)
Definition refusal {L : DocxLibrary} (line : str) (i : nat)
  : option Exception :=
  match role_at line i with
  | Blank => None
  | r => add_run_raises (run_text r (strip line))
  end.

(** The roles and the paragraphs of consecutive lines, from index [i], and
    the first refusal of python-docx among them. *)
Fixpoint roles_from (i : nat) (lines : list str) : list Role :=
  match lines with
  | [] => []
  | line :: rest => role_at line i :: roles_from (S i) rest
  end.

Fixpoint paragraphs_from (i : nat) (lines : list str) : Document :=
  match lines with
  | [] => []
  | line :: rest => paragraph_at line i :: paragraphs_from (S i) rest
  end.

Fixpoint first_refusal {L : DocxLibrary} (i : nat) (lines : list str)
  : option Exception :=
  match lines with
  | [] => None
  | line :: rest =>
      match refusal line i with
      | Some e => Some e
      | None => first_refusal (S i) rest
      end
  end.

(** The markers of contact information that are searched in the lower-cased
    line (["@"] is searched in the line itself). *)
Definition markers : list str :=
  [lit "phone"; lit "tel"; lit "linkedin"; lit "location"; ubicacion].

Definition has_marker (line : str) : Prop :=
  contains (lit "@") line = true \/
  exists m, In m markers /\ contains m (lower line) = true.

(** The segments of a line between ['|'] that are not empty. *)
Definition nonempty_segments (line : str) : list str :=
  List.filter truthy (split 124%N line).

(** When a role of the text-to-DOCX chain and a branch of the DOCX-to-PDF
    chain name the same kind of line. *)
Definition same_role (r : Role) (b : GeneratePdf.Branch) : bool :=
  match r, b with
  | Blank, GeneratePdf.BlankSpacer => true
  | SectionHeader, GeneratePdf.SectionHeaderStyle => true
  | (Title | Contact | JobTitle), GeneratePdf.NameOrJobTitle => true
  | Bullet, GeneratePdf.BulletPoint => true
  | Body, GeneratePdf.RegularText => true
  | _, _ => false
  end.

(** The text [process_paragraph] works on. *)
Definition pdf_text (para : Docx.Paragraph) : str :=
  GeneratePdf.clean_text (strip (paragraph_text para)).

(** The branch and the style of a paragraph with the non-empty text
    [text], read off the style chain of [process_paragraph] once [is_bold]
    and the value [header] of [is_header] are known. *)
Definition branch_of_chain (text : str) (is_bold header : bool)
  : GeneratePdf.Branch * ParagraphStyle :=
  if header && negb is_bold then
    (GeneratePdf.SectionHeaderStyle, CustomHeader)
  else if is_bold && (len text <? 100) &&
          (contains (lit "@") text || contains (lit "|") text ||
           match text with c :: _ => isupper [c] | [] => false end) then
    let centred :=
      contains (lit "@") text || negb (contains (lit "|") text) in
    (GeneratePdf.NameOrJobTitle,
     CustomBoldCenter (if centred then 12 else 10)
                      (if centred then TA_CENTER else TA_LEFT))
  else if startswith text (lit "-") || startswith text (lit "*") then
    (GeneratePdf.BulletPoint, CustomNormal)
  else
    (GeneratePdf.RegularText, if is_bold then CustomBold else CustomNormal).

(** What reportlab raises for a text of one of the PDF loops: an empty text
    gives the spacer, and every other text one paragraph. *)
Definition pdf_refusal {R : PdfLibrary} (text : str) : option Exception :=
  if truthy text then paragraph_raises text else None.

Fixpoint first_pdf_refusal {R : PdfLibrary} (texts : list str)
  : option Exception :=
  match texts with
  | [] => None
  | text :: rest =>
      match pdf_refusal text with
      | Some e => Some e
      | None => first_pdf_refusal rest
      end
  end.

End Chains.

(** [sep.join(segments)] *)
Fixpoint join (sep : char) (segments : list str) : str :=
  match segments with
  | [] => []
  | [seg] => seg
  | seg :: rest => seg ++ sep :: join sep rest
  end.

(** [is_bold] as [process_paragraph] computes it. *)
Definition first_run_bold (para : Docx.Paragraph) : bool :=
  match runs para with
  | first_run :: _ => GeneratePdf.truth (bold first_run)
  | [] => false
  end.

(** The branch and the flowable of a paragraph of a DOCX file: the spacer
    for an empty text, and the chain for every other text. *)
Definition branch_at {U : UnicodeData} (para : Docx.Paragraph)
  : GeneratePdf.Branch :=
  if truthy (pdf_text para)
  then fst (branch_of_chain (pdf_text para) (first_run_bold para)
              (header_value (pdf_text para)))
  else GeneratePdf.BlankSpacer.

Definition flowable_at {U : UnicodeData} (para : Docx.Paragraph)
  : Flowable :=
  if truthy (pdf_text para)
  then Paragraph (pdf_text para)
         (snd (branch_of_chain (pdf_text para) (first_run_bold para)
                 (header_value (pdf_text para))))
  else Spacer 1 6.

(** The lines a trace has printed. *)
Fixpoint printed (tr : Trace) : list str :=
  match tr with
  | [] => []
  | Print msg :: tr' => msg :: printed tr'
  | _ :: tr' => printed tr'
  end.

(** A first line that holds the name and the contact data, 115 characters
    long. *)
Definition long_first_line : str :=
  lit "Jordan Rivera | jordan.rivera@example.com | +1 (555) 010-2030 | linkedin.com/in/jordan-rivera | Austin, Texas 78701".

(** A text whose second line holds the control character U+0001. *)
Definition text_with_control_character : str :=
  lit "Ada Lovelace" ++ [10%N] ++ lit "Led a" ++ [1%N] ++ lit "team".

(** A directory with two resumes, the first of which cannot be read. *)
Definition two_resumes : Host := {|
  sorted_glob := fun _ _ => [lit "resume-a.txt"; lit "resume-b.txt"];
  read_text := fun _ file =>
    if startswith file (lit "resume-a")
    then inl (Error (lit "[Errno 13] Permission denied: 'resume-a.txt'"))
    else inr (lit "Ada Lovelace");
  docx_save := fun _ _ _ => inr tt;
  docx_load := fun _ _ => inl (Error (lit "Package not found"));
  pdf_build := fun _ _ _ => inr tt
|}.

(** The section keywords of [is_header], in the order of the source. *)
Definition section_keywords : list str :=
  [lit "EXPERIENCE"; lit "EDUCATION"; lit "SKILLS"; lit "EXPERIENCIA";
   EDUCACION; lit "HABILIDADES"; lit "WORK EXPERIENCE";
   lit "CAREER HISTORY"; lit "PROFESSIONAL SUMMARY";
   lit "TECHNICAL SKILLS"; lit "CERTIFICATIONS"; lit "PROJECTS";
   lit "PUBLICATIONS"; lit "AWARDS"; lit "LANGUAGES"].

(** The characters [line.lstrip('•-* ')] removes. *)
Definition bullet_chars : str := bullet_glyph ++ lit "-* ".

(** The three characters [clean_text] replaces by ['-']: the bullet, the
    em dash and the en dash. *)
Definition cleaned_away (c : char) : bool :=
  ((c =? 8226) || (c =? 8212) || (c =? 8211))%N.

(** What [clean_text] does to one character. *)
Definition dash (c : char) : char :=
  if cleaned_away c then 45%N else c.

(** A character the tables give no case. *)
Definition caseless {U : UnicodeData} (c : char) : Prop :=
  Py_UNICODE_ISUPPER c = false /\
  Py_UNICODE_ISLOWER c = false /\
  Py_UNICODE_ISTITLE c = false.

(** The hyphen and the three characters [clean_text] replaces by it. *)
Definition dash_like : list char := [45; 8226; 8212; 8211]%N.

(** [old] occurs in [stem ++ old] at its end only: no occurrence starts
    inside [stem]. *)
Definition only_at_end (old stem : str) : Prop :=
  forall k, k < List.length stem ->
            startswith (skipn k (stem ++ old)) old = false.

(** What [generate_docx.py] prints for one text file: the line of a
    success, or the line of a failure with its exception. *)
Definition docx_report (text_file msg : str) : Prop :=
  msg = lit "Created: " ++ docx_file_name text_file \/
  exists e, msg = lit "Error converting " ++ text_file ++ lit ": "
                    ++ str_of_exception e.

(** What [generate_pdf.py] prints for one DOCX file: the line of a
    success, or the line of the failure followed by the line of the
    fallback, which succeeded or failed. *)
Definition pdf_report (docx_file : str) (msgs : list str) : Prop :=
  msgs = [lit "Created: " ++ GeneratePdf.pdf_file_name docx_file] \/
  exists e,
    let failed := lit "Error converting " ++ docx_file ++ lit " to PDF: "
                    ++ str_of_exception e in
    msgs = [failed;
            lit "Created (from text): "
              ++ GeneratePdf.pdf_file_name docx_file] \/
    exists e2,
      msgs = [failed; lit "Fallback also failed: " ++ str_of_exception e2].

(** The flowable [create_simple_pdf_from_text] appends for one line, given
    the value [header] of the header test on the stripped line. *)
Definition text_flowable {U : UnicodeData} (line : str) (header : bool)
  : Flowable :=
  let text := GeneratePdf.clean_text (strip line) in
  if truthy text
  then Paragraph text (if header then Heading2 else Normal)
  else Spacer 1 6.

(** The files a trace has opened for reading and the DOCX files it has
    loaded. *)
Fixpoint texts_read (tr : Trace) : list str :=
  match tr with
  | [] => []
  | ReadText f :: tr' => f :: texts_read tr'
  | _ :: tr' => texts_read tr'
  end.

Fixpoint docx_loaded (tr : Trace) : list str :=
  match tr with
  | [] => []
  | LoadDocx f :: tr' => f :: docx_loaded tr'
  | _ :: tr' => docx_loaded tr'
  end.

(** ** Lemmas on the built-ins *)

Section BuiltinFacts.
Context {U : UnicodeData}.

Lemma or_inr (a : bool) (b : Exc bool) :
  or_ (inr a) b = if a then inr true else b.
Proof. reflexivity. Qed.

Lemma and_inr (a : bool) (b : Exc bool) :
  and_ (inr a) b = if a then b else inr false.
Proof. reflexivity. Qed.

Lemma alter_last {A} (f : A -> A) (l : list A) (x : A) :
  alter f (List.length l) (l ++ [x]) = l ++ [f x].
Proof. induction l as [| y l IH]; simpl; [reflexivity | now rewrite IH]. Qed.

Lemma nth_last {A} (l : list A) (x d : A) :
  nth (List.length l) (l ++ [x]) d = x.
Proof. induction l as [| y l IH]; simpl; [reflexivity | exact IH]. Qed.

Lemma lstrip_spaces (s : str) :
  forallb Py_UNICODE_ISSPACE s = true -> lstrip s = [].
Proof.
  induction s as [| c s IH]; simpl; [reflexivity |].
  intros Hs. apply andb_true_iff in Hs as [Hc Hs]. rewrite Hc. auto.
Qed.

Lemma strip_spaces (s : str) :
  forallb Py_UNICODE_ISSPACE s = true -> strip s = [].
Proof.
  intros Hs. unfold strip, rstrip. now rewrite (lstrip_spaces s Hs).
Qed.

Lemma split_not_nil (sep : char) (s : str) : split sep s <> [].
Proof.
  induction s as [| c s IH]; simpl; [discriminate |].
  destruct (c =? sep)%N; [discriminate |].
  destruct (split sep s); [contradiction | discriminate].
Qed.

(** A string that contains the separator splits in two segments or more:
    the second conjunct of [is_job_title] follows from the first. *)
Lemma split_contains (sep : char) (s : str) :
  contains [sep] s = true -> 2 <= List.length (split sep s).
Proof.
  induction s as [| c s IH]; simpl; [discriminate |].
  destruct (c =? sep)%N eqn:E; simpl.
  - intros _. pose proof (split_not_nil sep s) as NE.
    destruct (split sep s); [contradiction | simpl; lia].
  - intros Hc. specialize (IH Hc).
    destruct (split sep s); simpl in *; lia.
Qed.

Lemma is_job_title_contains (line : str) :
  is_job_title line = contains (lit "|") line.
Proof.
  unfold is_job_title. destruct (contains (lit "|") line) eqn:E; [| reflexivity].
  apply (split_contains 124%N) in E. cbn [andb].
  apply Nat.leb_le. exact E.
Qed.

End BuiltinFacts.

(** Evaluate the short-circuit operators whose left operand is a value. *)
Ltac eval_bool :=
  cbn [getitem0 bind ret Monad_either];
  repeat (rewrite ?or_inr, ?and_inr;
          match goal with
          | |- context [if ?t then _ else _] =>
              lazymatch t with
              | context [if _ then _ else _] => fail
              | _ => destruct t eqn:?
              end
          end);
  rewrite ?or_inr, ?and_inr.

(** ** Lemmas on the text-to-DOCX loop *)

Section DocxFacts.
Context {U : UnicodeData}.

Lemma is_header_total (c : char) (s : str) :
  exists b, is_header (c :: s) = inr b.
Proof. unfold is_header. eval_bool; eauto. Qed.

Lemma is_header_value (l : str) :
  l <> [] -> is_header l = inr (header_value l).
Proof.
  destruct l as [| c s]; [congruence | intros _].
  unfold header_value. destruct (is_header_total c s) as [b ->]. reflexivity.
Qed.

Lemma is_header_isupper (l : str) :
  isupper l = true -> is_header l = inr true.
Proof. intros E. unfold is_header. cbn [ret Monad_either]. now rewrite or_inr, E. Qed.

Lemma process_line_blank {L : DocxLibrary} (i : nat) (line : str)
  (doc : Document) :
  strip line = [] ->
  runStateT (process_line i line) doc
  = inr (Blank, doc ++ [paragraph_of_role Blank i []]).
Proof.
  intros E. unfold process_line. rewrite E. reflexivity.
Qed.

(** One run of the loop body on a line that is not blank: python-docx
    refuses the text of the run, or the paragraph of the role is added. *)
Lemma process_line_chain {L : DocxLibrary} (i : nat) (line : str)
  (doc : Document) (h : bool) :
  strip line <> [] ->
  is_header (strip line) = inr h ->
  runStateT (process_line i line) doc
  = match add_run_raises (run_text (role_of_chain i (strip line) h)
                            (strip line)) with
    | Some e => inl e
    | None =>
        inr (role_of_chain i (strip line) h,
             doc ++ [paragraph_of_role (role_of_chain i (strip line) h) i
                       (strip line)])
    end.
Proof.
  intros NE Hh. unfold process_line, role_of_chain.
  destruct (strip line) as [| c s] eqn:E; [congruence |].
  cbn [truthy negb]. rewrite <- E in *. clear E c s.
  generalize dependent (strip line). intros l _ Hh.
  cbn [runStateT bind lift MonadT_stateT Monad_stateT Monad_either ret].
  rewrite Hh.
  destruct (is_contact i l || (i =? 0) && (len l <? 100));
    [destruct (len l <? 100)
    | destruct h; [| destruct (is_job_title l); [| destruct (is_bullet l)]]];
    try destruct (i =? 0) eqn:Ei;
    cbn [andb run_text]; unfold add_run;
    match goal with
    | |- context [add_run_raises ?t] => destruct (add_run_raises t)
    end;
    cbn; rewrite ?alter_last, ?nth_last; cbn; rewrite ?alter_last; cbn;
    repeat match goal with
    | E : (i =? 0) = _ |- _ => rewrite E; clear E
    end;
    reflexivity.
Qed.

Lemma refusal_chain {L : DocxLibrary} (line : str) (i : nat) :
  strip line <> [] ->
  refusal line i
  = add_run_raises
      (run_text (role_of_chain i (strip line) (header_value (strip line)))
         (strip line)).
Proof.
  intros NE. unfold refusal, role_at.
  destruct (strip line) as [| c s] eqn:E; [congruence |].
  cbn [truthy]. unfold role_of_chain.
  repeat match goal with
  | |- context [if ?t then _ else _] =>
      lazymatch t with
      | context [if _ then _ else _] => fail
      | _ => destruct t
      end
  end; reflexivity.
Qed.

(** One run of the loop body, whatever the document so far. *)
Lemma process_line_run {L : DocxLibrary} (i : nat) (line : str)
  (doc : Document) :
  runStateT (process_line i line) doc
  = match refusal line i with
    | Some e => inl e
    | None => inr (role_at line i, doc ++ [paragraph_at line i])
    end.
Proof.
  destruct (strip line) as [| c s] eqn:E.
  - rewrite (process_line_blank i line doc E).
    unfold refusal, paragraph_at, role_at. rewrite E. reflexivity.
  - assert (NE : strip line <> []) by (rewrite E; discriminate).
    rewrite (process_line_chain i line doc NE (is_header_value NE)).
    rewrite (refusal_chain line i NE).
    unfold paragraph_at, role_at. rewrite E. reflexivity.
Qed.

Lemma accepts_all_refusal (line : str) (i : nat) :
  refusal (L := accepts_all) line i = None.
Proof. unfold refusal. destruct (role_at line i); reflexivity. Qed.

Lemma classify_role_at (line : str) (i : nat) :
  classify line i = inr (role_at line i).
Proof.
  unfold classify, evalStateT.
  rewrite process_line_run, accepts_all_refusal. reflexivity.
Qed.

Lemma paragraph_of_at (line : str) (i : nat) :
  paragraph_of line i = inr [paragraph_at line i].
Proof.
  unfold paragraph_of, execStateT.
  rewrite process_line_run, accepts_all_refusal. reflexivity.
Qed.

Lemma classify_chain (line : str) (i : nat) (h : bool) :
  strip line <> [] ->
  is_header (strip line) = inr h ->
  classify line i = inr (role_of_chain i (strip line) h).
Proof.
  intros NE Hh. unfold classify, evalStateT.
  rewrite (process_line_chain i line [] NE Hh). reflexivity.
Qed.

Lemma for_lines_run {L : DocxLibrary} (lines : list str) :
  forall (i : nat) (doc : Document),
    runStateT (for_lines i lines) doc
    = match first_refusal i lines with
      | Some e => inl e
      | None => inr (roles_from i lines, doc ++ paragraphs_from i lines)
      end.
Proof.
  induction lines as [| line rest IH]; intros i doc.
  - simpl. now rewrite app_nil_r.
  - cbn [for_lines roles_from paragraphs_from first_refusal].
    cbn [runStateT bind Monad_stateT Monad_either].
    rewrite process_line_run.
    destruct (refusal line i); [reflexivity |].
    rewrite IH.
    destruct (first_refusal (S i) rest); [reflexivity |].
    cbn. now rewrite <- app_assoc.
Qed.

Lemma first_refusal_witness {L : DocxLibrary} (lines : list str) :
  forall (i : nat) (e : Exception),
    first_refusal i lines = Some e ->
    exists k line,
      nth_error lines k = Some line /\ refusal line (i + k) = Some e.
Proof.
  induction lines as [| l rest IH]; intros i e; cbn [first_refusal].
  - discriminate.
  - destruct (refusal l i) as [e0 |] eqn:E.
    + intros Heq. injection Heq as <-. exists 0, l.
      now rewrite Nat.add_0_r.
    + intros Hr. destruct (IH (S i) e Hr) as [k [line [Hk Hl]]].
      exists (S k), line. split; [exact Hk |].
      now replace (i + S k) with (S i + k) by lia.
Qed.

Lemma first_refusal_none {L : DocxLibrary} (lines : list str) :
  forall (i : nat),
    first_refusal i lines = None <->
    forall k line, nth_error lines k = Some line ->
                   refusal line (i + k) = None.
Proof.
  induction lines as [| l rest IH]; intros i; cbn [first_refusal].
  - split; [intros _ k line Hk; destruct k; discriminate | reflexivity].
  - destruct (refusal l i) as [e0 |] eqn:E.
    + split; [discriminate |]. intros Hall.
      specialize (Hall 0 l eq_refl). rewrite Nat.add_0_r in Hall. congruence.
    + rewrite IH. split; intros Hall k line Hk.
      * destruct k as [| k]; simpl in Hk.
        -- injection Hk as <-. now rewrite Nat.add_0_r.
        -- replace (i + S k) with (S i + k) by lia. now apply Hall.
      * replace (S i + k) with (i + S k) by lia. now apply Hall.
Qed.

Lemma roles_from_nth (lines : list str) :
  forall (i k : nat) (line : str),
    nth_error lines k = Some line ->
    nth_error (roles_from i lines) k = Some (role_at line (i + k)).
Proof.
  induction lines as [| l rest IH]; intros i k line Hk.
  - destruct k; discriminate.
  - destruct k as [| k]; simpl in *.
    + injection Hk as ->. now rewrite Nat.add_0_r.
    + rewrite (IH (S i) k line Hk). f_equal. f_equal. lia.
Qed.

Lemma paragraphs_from_nth (lines : list str) :
  forall (i k : nat) (line : str),
    nth_error lines k = Some line ->
    nth_error (paragraphs_from i lines) k = Some (paragraph_at line (i + k)).
Proof.
  induction lines as [| l rest IH]; intros i k line Hk.
  - destruct k; discriminate.
  - destruct k as [| k]; simpl in *.
    + injection Hk as ->. now rewrite Nat.add_0_r.
    + rewrite (IH (S i) k line Hk). f_equal. f_equal. lia.
Qed.

Lemma paragraphs_from_length (lines : list str) (i : nat) :
  List.length (paragraphs_from i lines) = List.length lines.
Proof.
  revert i. induction lines as [| l rest IH]; intros i; simpl; auto.
Qed.

Lemma roles_from_length (lines : list str) (i : nat) :
  List.length (roles_from i lines) = List.length lines.
Proof.
  revert i. induction lines as [| l rest IH]; intros i; simpl; auto.
Qed.

End DocxFacts.

(** ** Lemmas on the lines of a text *)

Section LinesOfText.

Lemma split_count (sep : char) (s : str) :
  List.length (split sep s) = S (count_occ N.eq_dec s sep).
Proof.
  induction s as [| c s IH]; [reflexivity |].
  cbn [split count_occ].
  destruct (c =? sep)%N eqn:E.
  - apply N.eqb_eq in E. subst c.
    destruct (N.eq_dec sep sep); [| congruence]. simpl. now rewrite IH.
  - apply N.eqb_neq in E.
    destruct (N.eq_dec c sep); [congruence |].
    pose proof (split_not_nil sep s) as NE.
    destruct (split sep s); [contradiction | exact IH].
Qed.

(** The segments of [split], joined by the separator, give the string
    back, and no segment holds the separator. *)
Lemma join_split (sep : char) (s : str) : join sep (split sep s) = s.
Proof.
  induction s as [| c s IH]; [reflexivity |].
  cbn [split]. pose proof (split_not_nil sep s) as NE.
  destruct (c =? sep)%N eqn:E.
  - apply N.eqb_eq in E. subst c.
    destruct (split sep s) as [| seg segs]; [contradiction |].
    cbn [join app] in *. now rewrite IH.
  - destruct (split sep s) as [| seg segs]; [contradiction |].
    destruct segs as [| seg' segs]; cbn [join app] in *; now rewrite IH.
Qed.

Lemma split_free (sep : char) (s : str) :
  Forall (fun seg => ~ In sep seg) (split sep s).
Proof.
  induction s as [| c s IH]; cbn [split].
  - constructor; [intros [] | constructor].
  - destruct (c =? sep)%N eqn:E.
    + constructor; [intros [] | exact IH].
    + apply N.eqb_neq in E.
      destruct (split sep s) as [| seg segs];
        [constructor; [intros [Hc | []]; congruence | constructor] |].
      inversion IH as [| ? ? Hseg Hsegs]; subst.
      constructor; [| exact Hsegs].
      intros [Hc | Hin]; [congruence | contradiction].
Qed.

End LinesOfText.

(** ** The line classifier *)

Section Classifier.
Context {U : UnicodeData}.

(** C1: an all-uppercase line ([line.isupper()] holds: no lower-case or
    title-case character and at least one upper-case letter) that contains
    ['|'], at a position where neither the Title test nor the Contact test
    holds, is a [SectionHeader] and not a [JobTitle], although the test of
    the job-title branch holds for it too: the header branch comes first in
    the chain. *)
Theorem all_caps_pipe_is_section_header (line : str) (i : nat) :
  isupper (strip line) = true ->
  contains (lit "|") (strip line) = true ->
  is_contact i (strip line) = false ->
  (i =? 0) && (len (strip line) <? 100) = false ->
  classify line i = inr SectionHeader /\
  classify line i <> inr JobTitle /\
  is_job_title (strip line) = true.
Proof.
  intros Hup Hpipe Hc Ht.
  assert (NE : strip line <> []) by (intros E; rewrite E in Hup; discriminate).
  assert (Hcl : classify line i = inr SectionHeader).
  { rewrite (classify_chain line i NE (is_header_isupper _ Hup)).
    unfold role_of_chain. now rewrite Hc, Ht. }
  repeat split.
  - exact Hcl.
  - rewrite Hcl. discriminate.
  - now rewrite is_job_title_contains.
Qed.

(** C2, as the code has it: for a non-blank line that takes neither the
    name/contact branch nor the header branch, the role is [JobTitle]
    exactly when the line contains ['|'] and splitting on ['|'] yields at
    least 2 segments, empty segments counted (which holds for every line
    that contains ['|']); otherwise the line falls through to the Bullet
    and Body tests. *)
Theorem job_title_iff_pipe (line : str) (i : nat) :
  strip line <> [] ->
  is_contact i (strip line) = false ->
  (i =? 0) && (len (strip line) <? 100) = false ->
  is_header (strip line) = inr false ->
  (classify line i = inr JobTitle <->
   contains (lit "|") (strip line) = true /\
   2 <= List.length (split 124%N (strip line))) /\
  (contains (lit "|") (strip line) = true ->
   2 <= List.length (split 124%N (strip line))) /\
  (contains (lit "|") (strip line) = false ->
   classify line i = inr (if is_bullet (strip line) then Bullet else Body)).
Proof.
  intros NE Hc Ht Hh.
  rewrite (classify_chain line i NE Hh). unfold role_of_chain.
  rewrite Hc, Ht, is_job_title_contains. cbn [orb].
  split; [split |].
  - intros Hr. destruct (contains (lit "|") (strip line)) eqn:E.
    + split; [reflexivity | now apply (split_contains 124%N)].
    + destruct (is_bullet (strip line)); discriminate Hr.
  - intros [-> _]. reflexivity.
  - split.
    + apply (split_contains 124%N).
    + intros ->. reflexivity.
Qed.

(** C4: the selection of the role is total: for every string and every
    position [classify] returns one role and raises nothing.  The guard on
    the empty line is what makes it so: [is_header] evaluated on the empty
    string reaches [line[0]] and raises [IndexError].  The loop body adds
    to the selection only the calls into python-docx: under every library
    and on every document it returns with the role [classify] gives, or
    raises what [add_run] raises for a text the library refuses. *)
Theorem classify_total :
  (forall (line : str) (i : nat),
     exists r, classify line i = inr r /\
               forall r', classify line i = inr r' -> r' = r) /\
  (forall (L : DocxLibrary) (line : str) (i : nat) (doc : Document),
     (exists r doc',
        runStateT (process_line i line) doc = inr (r, doc') /\
        classify line i = inr r) \/
     (exists e t,
        add_run_raises t = Some e /\
        runStateT (process_line i line) doc = inl e)) /\
  is_header [] = inl IndexError.
Proof.
  split; [| split; [| reflexivity]].
  - intros line i. exists (role_at line i). rewrite classify_role_at.
    split; [reflexivity | intros r' E; now injection E].
  - intros L line i doc. rewrite process_line_run, classify_role_at.
    destruct (refusal line i) as [e |] eqn:E.
    + right. unfold refusal in E.
      destruct (role_at line i); try discriminate E; eauto.
    + left. eauto.
Qed.

(** C6: the role is [Contact] at positions 0, 1 and 2 only: at every
    position from 3 on the role is never [Contact], and a non-blank line
    at a position below 3 for which the Title test does not hold and that
    contains ["@"], or whose lower-cased text contains one of the markers,
    is a [Contact]. *)
Theorem contact_positions :
  (forall (line : str) (i : nat), 3 <= i -> classify line i <> inr Contact) /\
  (forall (line : str) (i : nat),
     i < 3 ->
     strip line <> [] ->
     (i =? 0) && (len (strip line) <? 100) = false ->
     has_marker (strip line) ->
     classify line i = inr Contact).
Proof.
  assert (Hm : forall l i, has_marker l -> i < 3 -> is_contact i l = true).
  { intros l i [Hat | [m [Hin Hm]]] Hi; unfold is_contact;
      apply Nat.ltb_lt in Hi; rewrite Hi; cbn [andb].
    - now rewrite Hat.
    - unfold markers in Hin. cbn [In] in Hin.
      repeat match goal with
      | H : _ \/ _ |- _ => destruct H as [<- | H]
      end; try contradiction; rewrite Hm; now rewrite ?orb_true_r. }
  split.
  - intros line i Hi. rewrite classify_role_at. unfold role_at, role_of_chain.
    destruct (truthy (strip line)); [| discriminate].
    unfold is_contact.
    replace (i <? 3) with false by (symmetry; apply Nat.ltb_ge; exact Hi).
    replace (i =? 0) with false by (symmetry; apply Nat.eqb_neq; lia).
    cbn [andb orb].
    destruct (header_value _); [discriminate |].
    destruct (is_job_title _); [discriminate |].
    destruct (is_bullet _); discriminate.
  - intros line i Hi NE Ht HM.
    rewrite (classify_chain line i NE (is_header_value NE)).
    unfold role_of_chain. rewrite (Hm _ i HM Hi), Ht. reflexivity.
Qed.

(** C9: a line with no character other than white space, the empty line
    included, is [Blank] at every position: the test for the empty line
    comes before every other test. *)
Theorem blank_line_is_blank (line : str) (i : nat) :
  forallb Py_UNICODE_ISSPACE line = true ->
  classify line i = inr Blank.
Proof.
  intros Hs. unfold classify, evalStateT.
  rewrite (process_line_blank i line [] (strip_spaces line Hs)). reflexivity.
Qed.

(** C7: [classify] is a function of the line and of its position alone.
    Two evaluations agree; the outcome of the loop body does not depend on
    the document built so far; and a text has one sequence of roles, the
    roles of its lines classified one by one with their index: it is the
    sequence of the conversion with a library that accepts every text, and
    of every conversion that returns, under any library, so that two
    conversions of the same text give the same roles. *)
Theorem classify_deterministic :
  (forall (line : str) (i : nat) (r1 r2 : Role),
     classify line i = inr r1 -> classify line i = inr r2 -> r1 = r2) /\
  (forall (L : DocxLibrary) (line : str) (i : nat) (doc1 doc2 : Document),
     evalStateT (process_line i line) doc1
     = evalStateT (process_line i line) doc2) /\
  (forall (content : str),
     exists roles,
       List.length roles = List.length (split 10%N content) /\
       (forall (k : nat) (line : str),
          nth_error (split 10%N content) k = Some line ->
          exists r, nth_error roles k = Some r /\ classify line k = inr r) /\
       (exists doc,
          convert_text (L := accepts_all) content = inr (roles, doc)) /\
       (forall (L : DocxLibrary) (roles' : list Role) (doc : Document),
          convert_text content = inr (roles', doc) -> roles' = roles)).
Proof.
  split; [| split].
  - intros line i r1 r2 E1 E2. rewrite E1 in E2. now injection E2.
  - intros L line i doc1 doc2. unfold evalStateT.
    rewrite !process_line_run. now destruct (refusal line i).
  - intros content. exists (roles_from 0 (split 10%N content)).
    split; [apply roles_from_length |]. split; [| split].
    + intros k line Hk. exists (role_at line k). split.
      * now rewrite (roles_from_nth _ 0 k Hk).
      * apply classify_role_at.
    + unfold convert_text. rewrite for_lines_run.
      assert (E : first_refusal (L := accepts_all) 0 (split 10%N content)
                  = None).
      { generalize 0. induction (split 10%N content) as [| l ls IH];
          intros n; cbn [first_refusal]; [reflexivity |].
        now rewrite accepts_all_refusal. }
      rewrite E. eauto.
    + intros L roles' doc. unfold convert_text. rewrite for_lines_run.
      destruct (first_refusal 0 (split 10%N content)); [discriminate |].
      intros E. now injection E.
Qed.

(** C10, as the code has it: the lines of a text are its segments between
    line feeds.  Where python-docx accepts the text of every line, the
    conversion emits exactly one paragraph per line, in the order of the
    lines: the document has one paragraph more than the text has line
    feeds, the paragraph at index [k] is the one of line [k], a blank
    line gives the empty paragraph and every other line a paragraph with
    one run.  Where python-docx refuses the text of a line, the conversion
    raises what [add_run] raises for it, and there is no document. *)
Theorem one_paragraph_per_line {L : DocxLibrary} (content : str) :
  let lines := split 10%N content in
  join 10%N lines = content /\
  Forall (fun line => ~ In 10%N line) lines /\
  ((forall (k : nat) (line : str),
      nth_error lines k = Some line -> refusal line k = None) ->
   exists roles doc, convert_text content = inr (roles, doc)) /\
  match convert_text content with
  | inr (roles, doc) =>
      List.length doc = S (count_occ N.eq_dec content 10%N) /\
      forall (k : nat) (line : str),
        nth_error lines k = Some line ->
        refusal line k = None /\
        exists p,
          nth_error doc k = Some p /\
          paragraph_of line k = inr [p] /\
          (strip line = [] -> p = mkParagraph None None [] None) /\
          (strip line <> [] -> List.length (runs p) = 1)
  | inl e =>
      exists (k : nat) (line : str),
        nth_error lines k = Some line /\ refusal line k = Some e
  end.
Proof.
  cbv zeta. split; [apply join_split |]. split; [apply split_free |].
  unfold convert_text. rewrite for_lines_run. split.
  - intros Hall.
    apply (proj2 (first_refusal_none (split 10%N content) 0)) in Hall.
    rewrite Hall. eauto.
  - destruct (first_refusal 0 (split 10%N content)) as [e |] eqn:E.
    + apply first_refusal_witness in E. exact E.
    + cbn [app]. split.
      * rewrite paragraphs_from_length. apply split_count.
      * intros k line Hk. split.
        { exact (proj1 (first_refusal_none _ 0) E k line Hk). }
        exists (paragraph_at line k). repeat split.
        -- now rewrite (paragraphs_from_nth _ 0 k Hk).
        -- apply paragraph_of_at.
        -- intros Es. unfold paragraph_at, role_at. rewrite Es. reflexivity.
        -- intros NE. unfold paragraph_at.
           destruct (role_at line k) eqn:R; try reflexivity.
           unfold role_at in R. destruct (strip line) as [| c s] eqn:Es;
             [congruence |].
           cbn [truthy] in R. unfold role_of_chain in R.
           repeat match type of R with
           | (if ?t then _ else _) = _ => destruct t
           end; discriminate.
Qed.

End Classifier.

(** ** Lemmas on the DOCX-to-PDF loop *)

Section PdfFacts.
Context {U : UnicodeData}.

Lemma pdf_is_header_total (c : char) (s : str) :
  exists b, GeneratePdf.is_header (c :: s) = inr b.
Proof. unfold GeneratePdf.is_header. eval_bool; eauto. Qed.

Lemma pdf_is_header_value (l : str) :
  l <> [] -> GeneratePdf.is_header l = inr (header_value l).
Proof. exact (is_header_value (l := l)). Qed.

Lemma process_paragraph_blank {R : PdfLibrary} (para : Docx.Paragraph)
  (story : Story) :
  GeneratePdf.clean_text (strip (paragraph_text para)) = [] ->
  runStateT (GeneratePdf.process_paragraph para) story
  = inr (GeneratePdf.BlankSpacer, story ++ [Spacer 1 6]).
Proof.
  intros E. unfold GeneratePdf.process_paragraph. rewrite E. reflexivity.
Qed.

(** One run of the loop body on a paragraph whose text is not empty:
    reportlab refuses the text, or the paragraph of the branch is
    appended. *)
Lemma process_paragraph_chain {R : PdfLibrary} (para : Docx.Paragraph)
  (story : Story) (h : bool) :
  pdf_text para <> [] ->
  GeneratePdf.is_header (pdf_text para) = inr h ->
  runStateT (GeneratePdf.process_paragraph para) story
  = match paragraph_raises (pdf_text para) with
    | Some e => inl e
    | None =>
        inr (fst (branch_of_chain (pdf_text para) (first_run_bold para) h),
             story ++
             [Paragraph (pdf_text para)
                (snd (branch_of_chain (pdf_text para) (first_run_bold para)
                        h))])
    end.
Proof.
  unfold pdf_text. intros NE Hh.
  unfold GeneratePdf.process_paragraph, branch_of_chain.
  change (match runs para with
          | [] => false
          | first_run :: _ => GeneratePdf.truth (bold first_run)
          end) with (first_run_bold para).
  destruct (GeneratePdf.clean_text (strip (paragraph_text para)))
    as [| c s] eqn:E; [congruence |].
  cbn [truthy negb]. rewrite Hh.
  cbn [runStateT bind lift MonadT_stateT Monad_stateT Monad_either ret
       getitem0].
  destruct (first_run_bold para), h, (len (c :: s) <? 100),
    (contains (lit "@") (c :: s)), (contains (lit "|") (c :: s)),
    (isupper [c]),
    (startswith (c :: s) (lit "-") || startswith (c :: s) (lit "*"));
    cbn [runStateT bind lift MonadT_stateT Monad_stateT Monad_either ret
         getitem0 negb andb orb and_ or_ fst snd];
    unfold new_paragraph; destruct (paragraph_raises (c :: s));
    reflexivity.
Qed.

Lemma process_paragraph_run {R : PdfLibrary} (para : Docx.Paragraph)
  (story : Story) :
  runStateT (GeneratePdf.process_paragraph para) story
  = match pdf_refusal (pdf_text para) with
    | Some e => inl e
    | None => inr (branch_at para, story ++ [flowable_at para])
    end.
Proof.
  unfold pdf_refusal, branch_at, flowable_at.
  destruct (pdf_text para) as [| c s] eqn:E.
  - rewrite (process_paragraph_blank para story E). reflexivity.
  - assert (NE : pdf_text para <> []) by (rewrite E; discriminate).
    rewrite (process_paragraph_chain para story NE (pdf_is_header_value NE)).
    rewrite E. reflexivity.
Qed.

Lemma classify_paragraph_at (para : Docx.Paragraph) :
  GeneratePdf.classify_paragraph para = inr (branch_at para).
Proof.
  unfold GeneratePdf.classify_paragraph, evalStateT.
  rewrite process_paragraph_run. unfold pdf_refusal.
  now destruct (truthy (pdf_text para)).
Qed.

(** The header branch is taken exactly by a text that passes the header
    test in a paragraph whose first run is not bold. *)
Lemma pdf_header_branch (para : Docx.Paragraph) :
  GeneratePdf.classify_paragraph para = inr GeneratePdf.SectionHeaderStyle ->
  GeneratePdf.is_header
    (GeneratePdf.clean_text (strip (paragraph_text para))) = inr true /\
  first_run_bold para = false.
Proof.
  rewrite classify_paragraph_at. unfold branch_at. fold (pdf_text para).
  destruct (pdf_text para) as [| c s] eqn:E; cbn [truthy]; [discriminate |].
  rewrite (pdf_is_header_value (l := c :: s)) by discriminate.
  unfold branch_of_chain.
  destruct (header_value (c :: s)), (first_run_bold para); cbn [andb negb];
    intros Hb; try (split; reflexivity);
    repeat match type of Hb with
    | context [if ?t then _ else _] => destruct t
    end; cbn [fst] in Hb; injection Hb as Hb; discriminate Hb.
Qed.

Lemma classify_paragraph_total (para : Docx.Paragraph) :
  exists b, GeneratePdf.classify_paragraph para = inr b /\
            (b = GeneratePdf.SectionHeaderStyle -> first_run_bold para = false).
Proof.
  exists (branch_at para). split; [apply classify_paragraph_at |].
  intros Hb. apply pdf_header_branch.
  now rewrite classify_paragraph_at, Hb.
Qed.

End PdfFacts.

(** ** The two conversion paths *)

Section Paths.
Context {U : UnicodeData}.

Lemma clean_text_nil : GeneratePdf.clean_text [] = [].
Proof. reflexivity. Qed.

End Paths.

(** C3 at two lines: the two paths do not give a line the same role.  The
    section header ["SKILLS"] of the text-to-DOCX path is written as a
    bold run, and the DOCX-to-PDF path, which gives its header style only
    to a paragraph that is not bold, takes its name/job-title branch for
    it; the bullet ["• Built pipelines"] is written without its glyph, and
    the DOCX-to-PDF path takes its header branch for the text that is
    left. *)
Theorem pdf_path_gives_other_roles :
  classify (lit "SKILLS") 5 = inr SectionHeader /\
  (exists p,
     paragraph_of (lit "SKILLS") 5 = inr [p] /\
     GeneratePdf.classify_paragraph p = inr GeneratePdf.NameOrJobTitle) /\
  same_role SectionHeader GeneratePdf.NameOrJobTitle = false /\
  classify ([8226; 32]%N ++ lit "Built pipelines") 10 = inr Bullet /\
  (exists p,
     paragraph_of ([8226; 32]%N ++ lit "Built pipelines") 10 = inr [p] /\
     GeneratePdf.classify_paragraph p = inr GeneratePdf.SectionHeaderStyle) /\
  same_role Bullet GeneratePdf.SectionHeaderStyle = false.
Proof.
  repeat split; try reflexivity.
  - eexists. split; vm_compute; reflexivity.
  - eexists. split; vm_compute; reflexivity.
Qed.

(** ** The batch drivers *)

Section Drivers.
Context {U : UnicodeData} {L : DocxLibrary} {R : PdfLibrary} {H : Host}.

Lemma run_bind {A B} (c : IO A) (f : A -> IO B) (tr : Trace) :
  run (x <- c ;; f x) tr
  = match run c tr with
    | (inr x, tr') => run (f x) tr'
    | (inl e, tr') => (inl e, tr')
    end.
Proof.
  unfold run. cbn. destruct (runState (unEitherT c) tr) as [[e | x] tr'];
    reflexivity.
Qed.

Lemma run_catch {A} (c : IO A) (h : Exception -> IO A) (tr : Trace) :
  run (catch c h) tr
  = match run c tr with
    | (inr x, tr') => (inr x, tr')
    | (inl e, tr') => run (h e) tr'
    end.
Proof.
  unfold run. cbn. destruct (runState (unEitherT c) tr) as [[e | x] tr'];
    reflexivity.
Qed.

Lemma run_call {A} (ev : Event) (o : Trace -> Exc A) (tr : Trace) :
  run (call ev o) tr = (o tr, tr ++ [ev]).
Proof. reflexivity. Qed.

Lemma run_print (msg : str) (tr : Trace) :
  run (print msg) tr = (inr tt, tr ++ [Print msg]).
Proof. reflexivity. Qed.

Lemma run_ret {A} (x : A) (tr : Trace) :
  run (ret x : IO A) tr = (inr x, tr).
Proof. reflexivity. Qed.

Lemma run_pure {A} (x : Exc A) (tr : Trace) :
  run (pure x) tr = (x, tr).
Proof. reflexivity. Qed.

Lemma texts_read_app (tr1 tr2 : Trace) :
  texts_read (tr1 ++ tr2) = texts_read tr1 ++ texts_read tr2.
Proof.
  induction tr1 as [| ev tr1 IH]; simpl; [reflexivity |].
  destruct ev; simpl; now rewrite IH.
Qed.

Lemma docx_loaded_app (tr1 tr2 : Trace) :
  docx_loaded (tr1 ++ tr2) = docx_loaded tr1 ++ docx_loaded tr2.
Proof.
  induction tr1 as [| ev tr1 IH]; simpl; [reflexivity |].
  destruct ev; simpl; now rewrite IH.
Qed.


(** The guarded conversion of one text file: an exception of the conversion
    is turned into one printed line that names the file. *)
Lemma docx_convert_one_run (f : str) (tr : Trace) :
  run (GenerateDocx.convert_one f) tr
  = match run (create_docx_from_text f) tr with
    | (inr _, tr1) => (inr tt, tr1)
    | (inl e, tr1) =>
        (inr tt,
         tr1 ++ [Print (lit "Error converting " ++ f ++ lit ": "
                          ++ str_of_exception e)])
    end.
Proof.
  unfold GenerateDocx.convert_one. rewrite run_catch, run_bind.
  destruct (run (create_docx_from_text f) tr) as [[e | x] tr1].
  - apply run_print.
  - reflexivity.
Qed.




(** [GeneratePdf.create_pdf_from_docx] handles every exception itself: the error is
    printed with the name of the file, the fallback is run once, and its
    own failure is printed too. *)
Lemma create_pdf_run (f : str) (tr : Trace) :
  run (GeneratePdf.create_pdf_from_docx f) tr
  = match run (GeneratePdf.convert_docx f (GeneratePdf.pdf_file_name f)) tr with
    | (inr x, tr1) => (inr x, tr1)
    | (inl e, tr1) =>
        match run (GeneratePdf.create_simple_pdf_from_text (GeneratePdf.fallback_text_file f)
                     (GeneratePdf.pdf_file_name f))
                (tr1 ++ [Print (lit "Error converting " ++ f
                                  ++ lit " to PDF: " ++ str_of_exception e)])
        with
        | (inr _, tr2) => (inr None, tr2)
        | (inl e2, tr2) =>
            (inr None,
             tr2 ++ [Print (lit "Fallback also failed: "
                              ++ str_of_exception e2)])
        end
    end.
Proof.
  unfold GeneratePdf.create_pdf_from_docx. rewrite run_catch.
  destruct (run (GeneratePdf.convert_docx f (GeneratePdf.pdf_file_name f)) tr) as [[e | x] tr1];
    [| reflexivity].
  unfold GeneratePdf.fallback. rewrite run_bind, run_print, run_bind, run_catch.
  destruct (run (GeneratePdf.create_simple_pdf_from_text _ _) _) as [[e2 | []] tr2].
  - rewrite run_print. apply run_ret.
  - apply run_ret.
Qed.




End Drivers.

(** ** The names of the output files *)

Section FileNames.

Lemma startswith_refl (s : str) : startswith s s = true.
Proof.
  induction s as [| c s IH]; simpl; [reflexivity |].
  now rewrite N.eqb_refl, IH.
Qed.

Lemma replace_from_skip (old new s : str) :
  forall k, List.length s <= k -> replace_from k old new s = [].
Proof.
  induction s as [| c s IH]; intros k Hk; simpl; [reflexivity |].
  destruct k as [| k]; simpl in Hk; [lia |]. apply IH. lia.
Qed.

(** Where the extension occurs only at the end of the name, [replace]
    substitutes it and leaves the rest unchanged. *)
Lemma replace_only_suffix (old new : str) :
  old <> [] ->
  forall stem : str,
    (forall k, k < List.length stem ->
               startswith (skipn k (stem ++ old)) old = false) ->
    replace old new (stem ++ old) = stem ++ new.
Proof.
  intros NE. unfold replace.
  destruct old as [| o old']; [congruence |].
  induction stem as [| c stem IH]; intros Hocc.
  - cbn [app replace_from].
    rewrite (startswith_refl (o :: old')).
    rewrite replace_from_skip by (unfold len; simpl; lia).
    now rewrite app_nil_r.
  - cbn [app replace_from].
    pose proof (Hocc 0 ltac:(simpl; lia)) as H0. cbn [skipn app] in H0.
    rewrite H0. f_equal. apply IH.
    intros k Hk. apply (Hocc (S k)). simpl. lia.
Qed.

(** C8 at a name that contains the extension twice: [replace] substitutes
    every occurrence, so the part of the name before the extension is
    changed too, in both scripts. *)
Theorem extension_substituted_everywhere :
  docx_file_name (lit "resume-notes.txt-v2.txt")
  = lit "resume-notes.docx-v2.docx" /\
  docx_file_name (lit "resume-notes.txt-v2.txt")
  <> lit "resume-notes.txt-v2" ++ lit ".docx" /\
  GeneratePdf.pdf_file_name (lit "resume-notes.docx-v2.docx")
  = lit "resume-notes.pdf-v2.pdf" /\
  GeneratePdf.pdf_file_name (lit "resume-notes.docx-v2.docx")
  <> lit "resume-notes.docx-v2" ++ lit ".pdf".
Proof.
  repeat split; try reflexivity; vm_compute; discriminate.
Qed.

End FileNames.

(** ** Concrete lines *)

Lemma all_caps_pipe_witness :
  classify (lit "SENIOR ENGINEER | TECHCORP") 5 = inr SectionHeader /\
  classify (lit "SENIOR ENGINEER | TECHCORP") 5 <> inr JobTitle /\
  is_job_title (strip (lit "SENIOR ENGINEER | TECHCORP")) = true.
Proof.
  apply (@all_caps_pipe_is_section_header latin1
           (lit "SENIOR ENGINEER | TECHCORP") 5); reflexivity.
Defined.

Lemma job_title_iff_pipe_witness :
  classify (lit "Senior Engineer | TechCorp | SF") 5 = inr JobTitle.
Proof.
  apply (proj1 (@job_title_iff_pipe latin1
                  (lit "Senior Engineer | TechCorp | SF") 5
                  ltac:(vm_compute; discriminate) eq_refl eq_refl eq_refl)).
  split; [reflexivity | vm_compute; lia].
Defined.

(** C2 as stated fails: this line has one non-empty segment only, it is
    matched by none of the Blank, Title, Contact and SectionHeader tests,
    and it is a [JobTitle]. *)
Lemma job_title_one_segment_counterexample :
  let line := lit "Senior Engineer |" in
  strip line <> [] /\
  ((5 =? 0) && (len (strip line) <? 100) = false) /\
  is_contact 5 (strip line) = false /\
  is_header (strip line) = inr false /\
  List.length (nonempty_segments line) = 1 /\
  ~ (classify line 5 = inr JobTitle <->
     contains (lit "|") line = true /\
     2 <= List.length (nonempty_segments line)).
Proof.
  cbv zeta. repeat split; try reflexivity; try (vm_compute; discriminate).
  intros [Hiff _]. specialize (Hiff eq_refl) as [_ Hlen].
  vm_compute in Hlen. lia.
Qed.

Lemma classify_total_witness :
  exists r, classify (lit "?!...") 7 = inr r /\
            forall r', classify (lit "?!...") 7 = inr r' -> r' = r.
Proof. exact (proj1 (@classify_total latin1) (lit "?!...") 7). Defined.

Lemma contact_positions_witness :
  classify (lit "Phone: (555) 010-2030") 1 = inr Contact.
Proof.
  apply (proj2 (@contact_positions latin1)).
  - lia.
  - vm_compute. discriminate.
  - reflexivity.
  - right. exists (lit "phone"). split; [simpl; auto | reflexivity].
Defined.

(** A first line of 115 characters that contains ["@"]: the Title test
    does not hold for it, it is a [Contact], and its run has the 14 pt of
    position 0. *)
Example long_first_line_is_contact :
  len (strip long_first_line) = 115 /\
  classify long_first_line 0 = inr Contact /\
  paragraph_of long_first_line 0
  = inr [mkParagraph None (Some CENTER)
           [mkRun long_first_line (Some true) (Some 14)] None].
Proof. repeat split. Qed.

Lemma blank_line_witness :
  classify [32; 9; 32]%N 0 = inr Blank.
Proof.
  apply (@blank_line_is_blank latin1 [32; 9; 32]%N 0). reflexivity.
Defined.

Lemma classify_deterministic_witness :
  classify (lit "a.b@example.org") 2 = inr Contact /\ Contact = Contact.
Proof.
  split; [reflexivity |].
  apply (proj1 (@classify_deterministic latin1)
           (lit "a.b@example.org") 2 Contact Contact); reflexivity.
Defined.

Lemma one_paragraph_per_line_witness :
  exists roles doc,
    convert_text (L := xml_strict) (lit "Ada Lovelace") = inr (roles, doc).
Proof.
  apply (proj1 (proj2 (proj2 (@one_paragraph_per_line latin1 xml_strict
                                (lit "Ada Lovelace"))))).
  intros k line Hk. destruct k as [| k]; cbn in Hk.
  - injection Hk as <-. reflexivity.
  - destruct k; discriminate Hk.
Defined.

(** C10 as stated fails where python-docx refuses a line: this text has
    two lines, and with a library that refuses what XML refuses the
    conversion raises at the run of the second line, so that there is no
    document, and no paragraph for either line. *)
Lemma control_character_counterexample :
  count_occ N.eq_dec text_with_control_character 10%N = 1 /\
  refusal (L := xml_strict) (lit "Ada Lovelace") 0 = None /\
  convert_text (L := xml_strict) text_with_control_character
  = inl (Error (lit "All strings must be XML compatible: Unicode or ASCII, no NULL bytes or control characters")) /\
  ~ (exists roles doc,
       convert_text (L := xml_strict) text_with_control_character
       = inr (roles, doc) /\
       List.length doc = 2).
Proof.
  split; [reflexivity |]. split; [reflexivity |]. split; [reflexivity |].
  intros [roles [doc [E _]]]. vm_compute in E. discriminate E.
Qed.

(** The batch goes on after the file that cannot be read, and says so. *)
Example batch_continues_after_failure :
  run (GenerateDocx.main (L := xml_strict) (H := two_resumes)) []
  = (inr tt,
     [Glob (lit "resume-*.txt");
      Print (lit "Found 2 text files to convert...");
      ReadText (lit "resume-a.txt");
      Print (lit "Error converting resume-a.txt: [Errno 13] Permission denied: 'resume-a.txt'");
      ReadText (lit "resume-b.txt");
      SaveDocx (lit "resume-b.docx")
        [mkParagraph None (Some CENTER)
           [mkRun (lit "Ada Lovelace") (Some true) (Some 14)] None];
      Print (lit "Created: resume-b.docx")]).
Proof. reflexivity. Qed.

(** With no DOCX file that can be loaded and no text file for the fallback,
    both failures are printed and the batch still ends normally. *)
Example pdf_fallback_is_reported :
  printed (snd (run (GeneratePdf.create_pdf_from_docx (R := parses_all)
                       (H := two_resumes) (lit "resume-a.docx")) []))
  = [lit "Error converting resume-a.docx to PDF: Package not found";
     lit "Fallback also failed: [Errno 13] Permission denied: 'resume-a.txt'"].
Proof. reflexivity. Qed.

(** ** Further properties of the text-to-DOCX loop *)

Section StripFacts.
Context {U : UnicodeData}.

Lemma lstrip_app_spaces (ws x : str) :
  forallb Py_UNICODE_ISSPACE ws = true -> lstrip (ws ++ x) = lstrip x.
Proof.
  induction ws as [| c ws IH]; simpl; [reflexivity |].
  intros Hs. apply andb_true_iff in Hs as [-> Hs]. auto.
Qed.

Lemma lstrip_app_r (l ws : str) :
  lstrip (l ++ ws)
  = if forallb Py_UNICODE_ISSPACE l then lstrip ws else lstrip l ++ ws.
Proof.
  induction l as [| c l IH]; simpl; [reflexivity |].
  destruct (Py_UNICODE_ISSPACE c); [exact IH | reflexivity].
Qed.

Lemma lstrip_idem (s : str) : lstrip (lstrip s) = lstrip s.
Proof.
  induction s as [| c s IH]; simpl; [reflexivity |].
  destruct (Py_UNICODE_ISSPACE c) eqn:E; [exact IH |].
  simpl. now rewrite E.
Qed.

Lemma lstrip_head (s t : str) (c : char) :
  lstrip s = c :: t -> Py_UNICODE_ISSPACE c = false.
Proof.
  induction s as [| d s IH]; simpl; [discriminate |].
  destruct (Py_UNICODE_ISSPACE d) eqn:E; [exact IH |].
  intros Heq. injection Heq as -> _. exact E.
Qed.

Lemma forallb_rev {A} (f : A -> bool) (l : list A) :
  forallb f (rev l) = forallb f l.
Proof.
  induction l as [| x l IH]; simpl; [reflexivity |].
  rewrite forallb_app, IH. simpl. rewrite andb_true_r. apply andb_comm.
Qed.

Lemma rstrip_app_spaces (x ws : str) :
  forallb Py_UNICODE_ISSPACE ws = true -> rstrip (x ++ ws) = rstrip x.
Proof.
  intros Hs. unfold rstrip. rewrite rev_app_distr.
  rewrite lstrip_app_spaces; [reflexivity | now rewrite forallb_rev].
Qed.

(** The result of [strip] neither starts nor ends with white space, so
    stripping it again changes nothing. *)
Lemma strip_idem (s : str) : strip (strip s) = strip s.
Proof.
  unfold strip at 2 3. unfold rstrip.
  set (u := lstrip (rev (lstrip s))).
  assert (Hu : lstrip u = u) by apply lstrip_idem.
  assert (Hr : lstrip (rev u) = rev u).
  { destruct (lstrip s) as [| c t] eqn:E.
    - reflexivity.
    - pose proof (lstrip_head s E) as Hc.
      subst u. cbn [rev]. rewrite lstrip_app_r.
      destruct (forallb Py_UNICODE_ISSPACE (rev t)).
      + simpl. rewrite Hc. simpl. now rewrite Hc.
      + rewrite rev_app_distr. simpl. now rewrite Hc. }
  unfold strip, rstrip. rewrite Hr, rev_involutive, Hu. reflexivity.
Qed.

Lemma strip_padded (ws1 line ws2 : str) :
  forallb Py_UNICODE_ISSPACE ws1 = true ->
  forallb Py_UNICODE_ISSPACE ws2 = true ->
  strip (ws1 ++ line ++ ws2) = strip line.
Proof.
  intros H1 H2. unfold strip.
  rewrite (lstrip_app_spaces ws1 _ H1), lstrip_app_r.
  destruct (forallb Py_UNICODE_ISSPACE line) eqn:E.
  - rewrite (lstrip_spaces ws2 H2), (lstrip_spaces line E). reflexivity.
  - now apply rstrip_app_spaces.
Qed.

Lemma classify_strip_eq (a b : str) (i : nat) :
  strip a = strip b ->
  classify a i = classify b i /\ paragraph_of a i = paragraph_of b i.
Proof.
  intros E. rewrite !classify_role_at, !paragraph_of_at.
  unfold paragraph_at, role_at. rewrite E. split; reflexivity.
Qed.

(** X1: white space around a line does not matter: a line padded with any
    white space on either side gets the role and the paragraph of the line
    itself, and so does the stripped line. *)
Theorem classify_ignores_padding (ws1 line ws2 : str) (i : nat) :
  forallb Py_UNICODE_ISSPACE ws1 = true ->
  forallb Py_UNICODE_ISSPACE ws2 = true ->
  classify (ws1 ++ line ++ ws2) i = classify line i /\
  paragraph_of (ws1 ++ line ++ ws2) i = paragraph_of line i /\
  classify (strip line) i = classify line i /\
  paragraph_of (strip line) i = paragraph_of line i.
Proof.
  intros H1 H2.
  destruct (classify_strip_eq (ws1 ++ line ++ ws2) line i
              (strip_padded ws1 line ws2 H1 H2)) as [Ha Hb].
  destruct (classify_strip_eq (strip line) line i (strip_idem line))
    as [Hc Hd].
  auto.
Qed.

End StripFacts.

Lemma classify_ignores_padding_witness :
  classify ([32; 32; 9]%N ++ lit "SKILLS" ++ [32; 13]%N) 4
  = classify (lit "SKILLS") 4.
Proof.
  apply (@classify_ignores_padding latin1 [32; 32; 9]%N (lit "SKILLS")
           [32; 13]%N 4); reflexivity.
Defined.

Section Roles.
Context {U : UnicodeData}.

Lemma is_contact_marker (i : nat) (l : str) :
  is_contact i l = true <-> i < 3 /\ has_marker l.
Proof.
  unfold is_contact, has_marker, markers. rewrite andb_true_iff, Nat.ltb_lt.
  split; intros [Hi Hm]; (split; [exact Hi |]).
  - repeat (apply orb_true_iff in Hm as [Hm | Hm]);
      [ now left | right .. ];
      eexists; (split; [| exact Hm]); cbn [In]; tauto.
  - destruct Hm as [-> | [m [Hin Hm]]]; [reflexivity |].
    cbn [In] in Hin.
    repeat match goal with
    | Hor : _ \/ _ |- _ => destruct Hor as [<- | Hor]
    end; try contradiction; rewrite Hm; now rewrite ?orb_true_r.
Qed.

(** X2: the paragraph has the format of the name (centred, one bold run of
    14 pt with the stripped line) exactly at position 0, for a line that is
    not blank and either is shorter than 100 characters or carries a
    contact marker; no line after the first ever gets it.  The role is
    [Title] exactly where, in addition, the line is shorter than 100
    characters. *)
Theorem name_format_iff_first_line (line : str) (i : nat) :
  (paragraph_of line i
   = inr [mkParagraph None (Some CENTER)
            [mkRun (strip line) (Some true) (Some 14)] None] <->
   i = 0 /\ strip line <> [] /\
   (len (strip line) < 100 \/ has_marker (strip line))) /\
  (classify line i = inr Title <->
   i = 0 /\ strip line <> [] /\ len (strip line) < 100).
Proof.
  rewrite classify_role_at, paragraph_of_at. unfold paragraph_at, role_at.
  destruct (strip line) as [| c s] eqn:E; cbn [truthy].
  - split; (split; [discriminate | intros [_ [NE _]]; congruence]).
  - unfold role_of_chain.
    pose proof (is_contact_marker i (c :: s)) as Hm.
    pose proof (Nat.ltb_lt (len (c :: s)) 100) as Hl.
    destruct i as [| i]; cbn [Nat.eqb andb] in *.
    + destruct (is_contact 0 (c :: s)) eqn:Hc,
               (len (c :: s) <? 100) eqn:Hlt; cbn [orb paragraph_of_role Nat.eqb].
      * split; (split; [intros _ | reflexivity]);
          repeat split; try discriminate; [left |]; now apply Hl.
      * split; split; try discriminate.
        -- intros _. repeat split; [discriminate |]. right. now apply Hm.
        -- reflexivity.
        -- intros [_ [_ Hlt']]. apply Hl in Hlt'. discriminate.
      * split; (split; [intros _ | reflexivity]);
          repeat split; try discriminate; [left |]; now apply Hl.
      * assert (Hno : ~ (0 = 0 /\ c :: s <> [] /\
                         (len (c :: s) < 100 \/ has_marker (c :: s)))).
        { intros [_ [_ [Hlt' | Hm']]].
          - apply Hl in Hlt'. discriminate.
          - assert (false = true) by (apply Hm; split; [lia | exact Hm']).
            discriminate. }
        split; split;
          try (intros [_ [_ Hlt']]; apply Hl in Hlt'; discriminate);
          try (intros Hyes; now apply Hno in Hyes);
          destruct (header_value _); try discriminate;
          destruct (is_job_title _); try discriminate;
          destruct (is_bullet _); discriminate.
    + rewrite orb_false_r.
      split; (split; [| intros [Hi _]; discriminate]);
        destruct (is_contact (S i) (c :: s)); try discriminate;
        destruct (header_value _); try discriminate;
        destruct (is_job_title _); try discriminate;
        destruct (is_bullet _); discriminate.
Qed.

Lemma startswith_nonempty (l kw : str) :
  kw <> [] -> startswith l kw = true -> l <> [].
Proof. destruct kw, l; simpl; congruence. Qed.

Lemma is_header_keyword (l kw : str) :
  In kw section_keywords -> startswith l kw = true -> is_header l = inr true.
Proof.
  intros Hin Hs.
  assert (NE : l <> []).
  { apply (@startswith_nonempty l kw); [| exact Hs].
    unfold section_keywords in Hin. cbn [In] in Hin.
    repeat match goal with
    | Hor : _ \/ _ |- _ => destruct Hor as [<- | Hor]
    end; try contradiction; discriminate. }
  destruct l as [| c s]; [congruence |].
  unfold section_keywords in Hin. cbn [In] in Hin.
  repeat match goal with
  | Hor : _ \/ _ |- _ => destruct Hor as [<- | Hor]
  end; try contradiction;
    unfold is_header; eval_bool; try reflexivity; congruence.
Qed.

Lemma is_header_capitalised (c : char) (s : str) :
  len (c :: s) < 50 ->
  Py_UNICODE_ISUPPER c = true ->
  contains (lit "|") (c :: s) = false ->
  is_header (c :: s) = inr true.
Proof.
  intros Hl Hu Hp. apply Nat.ltb_lt in Hl.
  unfold is_header. cbn [getitem0 bind ret Monad_either].
  rewrite or_inr. destruct (isupper (c :: s)); [reflexivity |].
  rewrite and_inr, Hl, and_inr. cbn [isupper]. rewrite Hu, Hp.
  reflexivity.
Qed.

Lemma header_role (line : str) (i : nat) :
  is_contact i (strip line) = false ->
  (i =? 0) && (len (strip line) <? 100) = false ->
  strip line <> [] ->
  is_header (strip line) = inr true ->
  classify line i = inr SectionHeader /\
  paragraph_of line i
  = inr [mkParagraph None None [mkRun (strip line) (Some true) (Some 12)]
           (Some 6)].
Proof.
  intros Hc Ht NE Hh.
  assert (R : role_at line i = SectionHeader).
  { unfold role_at. destruct (strip line) eqn:E; [congruence |].
    cbn [truthy]. unfold role_of_chain, header_value.
    now rewrite Hh, Hc, Ht. }
  rewrite classify_role_at, paragraph_of_at. unfold paragraph_at.
  rewrite R. split; reflexivity.
Qed.

(** X3: a line that starts with one of the fifteen section keywords is a
    [SectionHeader] wherever the name/contact branch is not taken, whatever
    follows the keyword on the line (a ['|'], lower-case text, any length);
    it is written as one bold 12 pt run. *)
Theorem keyword_line_is_section_header (line kw : str) (i : nat) :
  In kw section_keywords ->
  startswith (strip line) kw = true ->
  is_contact i (strip line) = false ->
  (i =? 0) && (len (strip line) <? 100) = false ->
  classify line i = inr SectionHeader /\
  paragraph_of line i
  = inr [mkParagraph None None [mkRun (strip line) (Some true) (Some 12)]
           (Some 6)].
Proof.
  intros Hin Hs Hc Ht.
  pose proof (is_header_keyword _ Hin Hs) as Hh.
  apply header_role; try assumption.
  intros E. rewrite E in Hh. discriminate.
Qed.

(** X4: every line shorter than 50 characters that starts with an
    upper-case letter and has no ['|'] is a [SectionHeader] wherever the
    name/contact branch is not taken: a short capitalised sentence is
    formatted as a header, not as body text. *)
Theorem short_capitalised_line_is_section_header
  (line s : str) (c : char) (i : nat) :
  strip line = c :: s ->
  len (c :: s) < 50 ->
  Py_UNICODE_ISUPPER c = true ->
  contains (lit "|") (c :: s) = false ->
  is_contact i (c :: s) = false ->
  (i =? 0) && (len (c :: s) <? 100) = false ->
  classify line i = inr SectionHeader /\
  classify line i <> inr Body.
Proof.
  intros E Hl Hu Hp Hc Ht.
  assert (Hcl : classify line i = inr SectionHeader).
  { apply header_role; rewrite ?E; try assumption; [discriminate |].
    now apply is_header_capitalised. }
  split; [exact Hcl | rewrite Hcl; discriminate].
Qed.

Lemma lstrip_chars_spec (chars s : str) :
  exists prefix,
    s = prefix ++ lstrip_chars chars s /\
    Forall (fun c => In c chars) prefix /\
    match lstrip_chars chars s with
    | [] => True
    | c :: _ => ~ In c chars
    end.
Proof.
  induction s as [| c s [prefix [Hs [Hp Hh]]]]; simpl.
  - exists []. repeat split; constructor.
  - destruct (existsb (N.eqb c) chars) eqn:E.
    + exists (c :: prefix). repeat split.
      * simpl. now f_equal.
      * constructor; [| exact Hp].
        apply existsb_exists in E as [x [Hx Hcx]].
        apply N.eqb_eq in Hcx. now subst.
      * exact Hh.
    + exists []. repeat split; [constructor |].
      intros Hin. apply Bool.not_true_iff_false in E. apply E.
      apply existsb_exists. exists c. split; [exact Hin | apply N.eqb_refl].
Qed.

(** X5: the run of a [Bullet] paragraph is the line without its leading
    bullet characters: the line is a non-empty prefix of characters among
    ['•'], ['-'], ['*'] and the space, followed by the text of the run,
    which does not start with any of them (and may be empty); the
    paragraph has the style ['List Bullet'] and its run is not bold. *)
Theorem bullet_text_has_no_leading_glyph (line : str) (i : nat) :
  classify line i = inr Bullet ->
  exists prefix t,
    strip line = prefix ++ t /\
    prefix <> [] /\
    Forall (fun c => In c bullet_chars) prefix /\
    match t with [] => True | c :: _ => ~ In c bullet_chars end /\
    paragraph_of line i
    = inr [mkParagraph (Some (lit "List Bullet")) None [mkRun t None None]
             (Some 3)].
Proof.
  intros Hc. rewrite classify_role_at in Hc. injection Hc as R.
  destruct (lstrip_chars_spec bullet_chars (strip line))
    as [prefix [Hs [Hp Hh]]].
  exists prefix, (lstrip_chars bullet_chars (strip line)).
  split; [exact Hs |]. split; [| split; [exact Hp | split; [exact Hh |]]].
  - assert (Hb : is_bullet (strip line) = true).
    { unfold role_at in R. destruct (truthy (strip line)); [| discriminate].
      unfold role_of_chain in R.
      repeat match type of R with
      | (if ?t then _ else _) = _ => destruct t eqn:?
      end; try discriminate; reflexivity. }
    intros ->. cbn [app] in Hs.
    destruct (strip line) as [| c s] eqn:E; [discriminate Hb |].
    rewrite <- Hs in Hh. apply Hh.
    unfold is_bullet in Hb. cbn [startswith] in Hb.
    unfold bullet_chars, bullet_glyph. cbn.
    repeat (apply orb_true_iff in Hb as [Hb | Hb]);
      apply andb_true_iff in Hb as [Hb _]; apply N.eqb_eq in Hb; subst c;
      tauto.
  - rewrite paragraph_of_at. unfold paragraph_at. rewrite R. reflexivity.
Qed.

End Roles.

Lemma name_format_witness :
  paragraph_of long_first_line 0
  = inr [mkParagraph None (Some CENTER)
           [mkRun (strip long_first_line) (Some true) (Some 14)] None].
Proof.
  apply (proj2 (proj1 (@name_format_iff_first_line latin1
                         long_first_line 0))).
  split; [reflexivity |]. split; [vm_compute; discriminate |].
  right. left. reflexivity.
Defined.

Lemma keyword_line_witness :
  classify (lit "SKILLS | Python, SQL and more") 6 = inr SectionHeader.
Proof.
  apply (@keyword_line_is_section_header latin1
           (lit "SKILLS | Python, SQL and more") (lit "SKILLS") 6);
    try reflexivity.
  unfold section_keywords. cbn [In]. tauto.
Defined.

Lemma short_capitalised_line_witness :
  classify (lit "Managed a team of five.") 9 = inr SectionHeader.
Proof.
  apply (@short_capitalised_line_is_section_header latin1
           (lit "Managed a team of five.") (lit "anaged a team of five.")
           77%N 9); try reflexivity.
  vm_compute. lia.
Defined.

Lemma bullet_text_witness :
  exists prefix t,
    strip (lit "- * Built pipelines") = prefix ++ t /\
    prefix <> [] /\
    Forall (fun c => In c bullet_chars) prefix /\
    match t with [] => True | c :: _ => ~ In c bullet_chars end /\
    paragraph_of (lit "- * Built pipelines") 10
    = inr [mkParagraph (Some (lit "List Bullet")) None [mkRun t None None]
             (Some 3)].
Proof.
  apply (@bullet_text_has_no_leading_glyph latin1
           (lit "- * Built pipelines") 10).
  reflexivity.
Defined.

(** ** Further properties of the DOCX-to-PDF loop *)

Section CleanText.
Context {U : UnicodeData}.

Lemma startswith_nil (s : str) : startswith s [] = true.
Proof. destruct s; reflexivity. Qed.

Lemma replace_single (a b : char) (s : str) :
  replace [a] [b] s = List.map (fun c => if (c =? a)%N then b else c) s.
Proof.
  unfold replace. induction s as [| c s IH]; [reflexivity |].
  cbn [replace_from startswith List.map len List.length Nat.sub].
  rewrite startswith_nil, andb_true_r. destruct (c =? a)%N; cbn [app]; now rewrite IH.
Qed.

Lemma dash_steps (c : char) :
  (let c1 := if (c =? 8226)%N then 45%N else c in
   let c2 := if (c1 =? 8212)%N then 45%N else c1 in
   if (c2 =? 8211)%N then 45%N else c2) = dash c.
Proof.
  unfold dash, cleaned_away. cbv zeta.
  destruct (c =? 8226)%N; [reflexivity |].
  destruct (c =? 8212)%N; [reflexivity |].
  destruct (c =? 8211)%N; reflexivity.
Qed.

Lemma clean_text_map (s : str) : GeneratePdf.clean_text s = List.map dash s.
Proof.
  unfold GeneratePdf.clean_text. cbv zeta.
  change (lit "-") with [45%N].
  rewrite !replace_single, !map_map.
  apply map_ext. exact dash_steps.
Qed.

Lemma dash_not_cleaned (c : char) : cleaned_away (dash c) = false.
Proof.
  unfold dash. destruct (cleaned_away c) eqn:E; [reflexivity | exact E].
Qed.

Lemma dash_keeps (c : char) : cleaned_away c = false -> dash c = c.
Proof. unfold dash. now intros ->. Qed.

(** X6: [clean_text] replaces the bullet, the em dash and the en dash by a
    hyphen, character by character: the length is kept, none of the three
    is left, a text without them is unchanged, cleaning twice is cleaning
    once, and only the empty text is cleaned to the empty text. *)
Theorem clean_text_replaces_in_place (s : str) :
  GeneratePdf.clean_text s = List.map dash s /\
  len (GeneratePdf.clean_text s) = len s /\
  Forall (fun c => cleaned_away c = false) (GeneratePdf.clean_text s) /\
  (Forall (fun c => cleaned_away c = false) s ->
   GeneratePdf.clean_text s = s) /\
  GeneratePdf.clean_text (GeneratePdf.clean_text s)
  = GeneratePdf.clean_text s /\
  (GeneratePdf.clean_text s = [] <-> s = []).
Proof.
  rewrite !clean_text_map. split; [reflexivity |].
  split; [apply length_map |].
  split; [apply Forall_map, Forall_forall; intros c _; apply dash_not_cleaned |].
  split.
  { intros Hs. induction Hs as [| c s Hc _ IH]; [reflexivity |].
    cbn [List.map]. now rewrite (dash_keeps c Hc), IH. }
  split.
  { rewrite map_map. apply map_ext. intros c.
    apply dash_keeps, dash_not_cleaned. }
  destruct s; simpl; split; congruence.
Qed.

Lemma dash_eqb (c k : char) :
  cleaned_away k = false -> k <> 45%N -> (dash c =? k)%N = (c =? k)%N.
Proof.
  intros Hk H45. unfold dash. destruct (cleaned_away c) eqn:Hc; [| reflexivity].
  destruct (c =? k)%N eqn:E.
  - apply N.eqb_eq in E. subst. congruence.
  - apply N.eqb_neq. congruence.
Qed.

Lemma startswith_map_dash (kw : str) :
  Forall (fun k => cleaned_away k = false /\ k <> 45%N) kw ->
  forall l : str, startswith (List.map dash l) kw = startswith l kw.
Proof.
  induction 1 as [| k kw [Hk H45] _ IH]; intros l.
  - destruct l; reflexivity.
  - destruct l as [| c l]; [reflexivity |].
    cbn [List.map startswith]. now rewrite IH, dash_eqb.
Qed.

Lemma contains_map_dash (kw : str) :
  Forall (fun k => cleaned_away k = false /\ k <> 45%N) kw ->
  forall l : str, contains kw (List.map dash l) = contains kw l.
Proof.
  intros Hkw. induction l as [| c l IH].
  - cbn [List.map contains].
    now rewrite <- (startswith_map_dash Hkw []).
  - cbn [contains]. rewrite <- IH.
    now rewrite <- (startswith_map_dash Hkw (c :: l)).
Qed.

End CleanText.

(** A literal free of the hyphen and of the characters [clean_text]
    replaces. *)
Ltac dash_free :=
  repeat constructor; try reflexivity; discriminate.

Lemma clean_text_witness :
  GeneratePdf.clean_text (lit "2019 - 2021, Python") = lit "2019 - 2021, Python".
Proof.
  apply (proj1 (proj2 (proj2 (proj2
           (@clean_text_replaces_in_place (lit "2019 - 2021, Python")))))).
  repeat constructor.
Defined.

Section PdfLoop.
Context {U : UnicodeData} {L : DocxLibrary} {R : PdfLibrary}.

(** The loop of [create_pdf_from_docx] on a document: the first refusal of
    reportlab, or one flowable per paragraph. *)
Lemma for_paragraphs_run (doc : Document) (story : Story) :
  runStateT (GeneratePdf.for_paragraphs doc) story
  = match first_pdf_refusal (List.map pdf_text doc) with
    | Some e => inl e
    | None =>
        inr (List.map branch_at doc, story ++ List.map flowable_at doc)
    end.
Proof.
  revert story. induction doc as [| para rest IH]; intros story.
  - simpl. now rewrite app_nil_r.
  - cbn [GeneratePdf.for_paragraphs List.map first_pdf_refusal].
    cbn [runStateT bind Monad_stateT Monad_either].
    rewrite process_paragraph_run.
    destruct (pdf_refusal (pdf_text para)); [reflexivity |].
    rewrite IH. destruct (first_pdf_refusal (List.map pdf_text rest));
      [reflexivity |].
    cbn. now rewrite <- app_assoc.
Qed.

Lemma first_pdf_refusal_witness (texts : list str) (e : Exception) :
  first_pdf_refusal texts = Some e ->
  exists t, In t texts /\ pdf_refusal t = Some e.
Proof.
  induction texts as [| t rest IH]; simpl; [discriminate |].
  destruct (pdf_refusal t) eqn:E.
  - intros [= ->]. eauto.
  - intros Hr. destruct (IH Hr) as [t' [Hin Ht']]. eauto.
Qed.

Lemma first_pdf_refusal_none (texts : list str) :
  first_pdf_refusal texts = None <->
  forall t, In t texts -> pdf_refusal t = None.
Proof.
  induction texts as [| t rest IH]; simpl.
  - split; [intros _ t [] | reflexivity].
  - destruct (pdf_refusal t) eqn:E.
    + split; [discriminate |]. intros Hall.
      rewrite <- E. apply Hall. now left.
    + rewrite IH. split.
      * intros Hall t' [<- | Hin]; auto.
      * intros Hall t' Hin. apply Hall. now right.
Qed.

Lemma process_paragraph_exec (para : Docx.Paragraph) :
  pdf_refusal (pdf_text para) = None ->
  execStateT (GeneratePdf.process_paragraph para) []
  = inr [flowable_at para].
Proof.
  intros E. unfold execStateT. rewrite process_paragraph_run, E.
  reflexivity.
Qed.

(** X7: the loop of [create_pdf_from_docx] returns exactly when reportlab
    refuses the text of no paragraph.  Where it returns, it has appended
    exactly one flowable per paragraph of the DOCX document, in the order
    of the paragraphs, and the flowable of a paragraph is the one the loop
    body gives for it alone, whatever the paragraphs before it hold; where
    it raises, the exception is the one of reportlab for the text of one
    of the paragraphs, and nothing else raises. *)
Theorem one_flowable_per_paragraph (doc : Document) :
  ((forall para, In para doc -> pdf_refusal (pdf_text para) = None) <->
   exists branches story,
     runStateT (GeneratePdf.for_paragraphs doc) [] = inr (branches, story)) /\
  match runStateT (GeneratePdf.for_paragraphs doc) [] with
  | inr (branches, story) =>
      List.length story = List.length doc /\
      List.length branches = List.length doc /\
      forall (k : nat) (para : Docx.Paragraph),
        nth_error doc k = Some para ->
        exists x,
          nth_error story k = Some x /\
          execStateT (GeneratePdf.process_paragraph para) [] = inr [x]
  | inl e =>
      exists para,
        In para doc /\
        pdf_text para <> [] /\
        paragraph_raises (pdf_text para) = Some e
  end.
Proof.
  rewrite for_paragraphs_run.
  pose proof (first_pdf_refusal_none (List.map pdf_text doc)) as Hnone.
  destruct (first_pdf_refusal (List.map pdf_text doc)) as [e |] eqn:E.
  - split.
    + split.
      * intros Hall. assert (Some e = None); [| discriminate].
        apply Hnone. intros t Hin.
        apply in_map_iff in Hin as [para [<- Hin]]. auto.
      * intros [branches [story Hrun]]. discriminate.
    + apply first_pdf_refusal_witness in E as [t [Hin Ht]].
      apply in_map_iff in Hin as [para [<- Hin]].
      exists para. split; [exact Hin |].
      unfold pdf_refusal in Ht.
      destruct (pdf_text para); [discriminate | split; [discriminate | exact Ht]].
  - assert (Hall : forall para, In para doc ->
                                pdf_refusal (pdf_text para) = None).
    { intros para Hin. apply Hnone; [reflexivity |].
      apply in_map_iff. eauto. }
    split; [split; [eauto | intros _; exact Hall] |].
    cbn [app]. rewrite !length_map. repeat split.
    intros k para Hk. exists (flowable_at para). split.
    + now rewrite nth_error_map, Hk.
    + apply process_paragraph_exec, Hall. eapply nth_error_In, Hk.
Qed.

Lemma blank_paragraph_spacer :
  flowable_at (mkParagraph None None [] None) = Spacer 1 6.
Proof. reflexivity. Qed.

(** X8: the two conversions compose.  Where the conversion of a text to a
    DOCX document returns (python-docx accepts the run of every line), the
    loop of [create_pdf_from_docx] on that document either returns a story
    with one flowable more than the text has line breaks, in which every
    blank line of the text is the spacer [Spacer(1, 6)] at the index of the
    line, or raises the exception of reportlab for the text of one of the
    paragraphs.  Both return when python-docx accepts the run of every line
    and reportlab the text of every paragraph written for a line. *)
Theorem text_to_pdf_one_flowable_per_line (content : str) :
  ((forall k line, nth_error (split 10%N content) k = Some line ->
                   refusal line k = None /\
                   pdf_refusal (pdf_text (paragraph_at line k)) = None) ->
   exists roles doc branches story,
     convert_text content = inr (roles, doc) /\
     runStateT (GeneratePdf.for_paragraphs doc) [] = inr (branches, story)) /\
  forall roles doc,
    convert_text content = inr (roles, doc) ->
    match runStateT (GeneratePdf.for_paragraphs doc) [] with
    | inr (branches, story) =>
        List.length story = S (count_occ N.eq_dec content 10%N) /\
        forall (k : nat) (line : str),
          nth_error (split 10%N content) k = Some line ->
          strip line = [] ->
          nth_error story k = Some (Spacer 1 6)
    | inl e =>
        exists para,
          In para doc /\ paragraph_raises (pdf_text para) = Some e
    end.
Proof.
  unfold convert_text. rewrite for_lines_run. cbn [app].
  set (lines := split 10%N content).
  set (doc := paragraphs_from 0 lines).
  split.
  - intros Hall.
    assert (E1 : first_refusal 0 lines = None).
    { apply first_refusal_none. intros k line Hk. now apply Hall. }
    rewrite E1. exists (roles_from 0 lines), doc.
    rewrite for_paragraphs_run.
    assert (E2 : first_pdf_refusal (List.map pdf_text doc) = None).
    { apply first_pdf_refusal_none. intros t Hin.
      apply in_map_iff in Hin as [para [<- Hin]].
      apply In_nth_error in Hin as [k Hk].
      assert (Hlt : k < List.length lines).
      { rewrite <- (paragraphs_from_length lines 0).
        apply nth_error_Some. fold doc. congruence. }
      destruct (nth_error lines k) as [line |] eqn:Hline;
        [| apply nth_error_None in Hline; lia].
      pose proof (paragraphs_from_nth _ 0 k Hline) as Hp. fold doc in Hp.
      rewrite Hk in Hp. injection Hp as ->. cbn [Nat.add].
      now apply Hall. }
    rewrite E2. eauto.
  - intros roles doc' Hrun.
    destruct (first_refusal 0 lines); [discriminate |].
    injection Hrun as _ <-.
    rewrite for_paragraphs_run.
    destruct (first_pdf_refusal (List.map pdf_text doc)) as [e |] eqn:E.
    + apply first_pdf_refusal_witness in E as [t [Hin Ht]].
      apply in_map_iff in Hin as [para [<- Hin]].
      exists para. split; [exact Hin |].
      unfold pdf_refusal in Ht.
      destruct (truthy (pdf_text para)); [exact Ht | discriminate].
    + cbn [app]. rewrite length_map. split.
      * unfold doc. rewrite paragraphs_from_length. apply split_count.
      * intros k line Hk Hb.
        pose proof (paragraphs_from_nth _ 0 k Hk) as Hp. fold doc in Hp.
        rewrite nth_error_map, Hp. cbn [Nat.add option_map].
        unfold paragraph_at, role_at. rewrite Hb. reflexivity.
Qed.

End PdfLoop.

Section PdfStyles.
Context {U : UnicodeData}.

Lemma role_at_nonblank (line : str) (i : nat) :
  role_at line i <> Blank -> strip line <> [].
Proof.
  unfold role_at. destruct (strip line); [intros NB; now elim NB | discriminate].
Qed.

Lemma role_at_job_title (line : str) (i : nat) :
  role_at line i = JobTitle -> contains (lit "|") (strip line) = true.
Proof.
  unfold role_at. destruct (truthy (strip line)); [| discriminate].
  unfold role_of_chain. intros R.
  rewrite <- is_job_title_contains.
  repeat match type of R with
  | (if ?t then _ else _) = _ => destruct t eqn:?
  end; try discriminate; reflexivity.
Qed.

(** X9: a [JobTitle] line shorter than 100 characters goes through the
    name/job-title branch of the DOCX-to-PDF loop: where reportlab accepts
    the cleaned text of the line, the loop body gives one bold paragraph
    with that text, left-aligned at 10 pt, or centred at 12 pt when the
    line contains ["@"]; and where reportlab refuses it, its exception. *)
Theorem job_title_line_in_pdf (line : str) (i : nat) :
  classify line i = inr JobTitle ->
  len (strip line) < 100 ->
  exists p,
    paragraph_of line i = inr [p] /\
    runStateT (GeneratePdf.process_paragraph (R := parses_all) p) []
    = inr (GeneratePdf.NameOrJobTitle,
           [Paragraph (GeneratePdf.clean_text (strip line))
              (if contains (lit "@") (strip line)
               then CustomBoldCenter 12 TA_CENTER
               else CustomBoldCenter 10 TA_LEFT)]) /\
    forall R : PdfLibrary,
      runStateT (GeneratePdf.process_paragraph p) []
      = match paragraph_raises (GeneratePdf.clean_text (strip line)) with
        | Some e => inl e
        | None =>
            inr (GeneratePdf.NameOrJobTitle,
                 [Paragraph (GeneratePdf.clean_text (strip line))
                    (if contains (lit "@") (strip line)
                     then CustomBoldCenter 12 TA_CENTER
                     else CustomBoldCenter 10 TA_LEFT)])
        end.
Proof.
  intros Hc Hl. rewrite classify_role_at in Hc. injection Hc as Hr.
  exists (paragraph_at line i). split; [apply paragraph_of_at |].
  pose proof (role_at_job_title line i Hr) as Hpipe.
  assert (NE : strip line <> [])
    by (apply (role_at_nonblank line i); rewrite Hr; discriminate).
  unfold paragraph_at. rewrite Hr. cbn [paragraph_of_role].
  set (p := mkParagraph None None [mkRun (strip line) (Some true) None]
              (Some 3)).
  assert (Htext : pdf_text p = GeneratePdf.clean_text (strip line)).
  { unfold pdf_text, p. cbn [paragraph_text runs flat_map text].
    now rewrite app_nil_r, strip_idem. }
  assert (Hat : contains (lit "@") (GeneratePdf.clean_text (strip line))
                = contains (lit "@") (strip line))
    by (rewrite clean_text_map; apply contains_map_dash; dash_free).
  assert (Hp : contains (lit "|") (GeneratePdf.clean_text (strip line)) = true)
    by (rewrite clean_text_map, contains_map_dash; [exact Hpipe | dash_free]).
  assert (Hlen : (len (GeneratePdf.clean_text (strip line)) <? 100) = true)
    by (rewrite clean_text_map; unfold len; rewrite length_map;
        now apply Nat.ltb_lt).
  assert (NE' : pdf_text p <> []).
  { rewrite Htext, clean_text_map.
    destruct (strip line); [congruence | discriminate]. }
  assert (Hall : forall R : PdfLibrary,
            runStateT (GeneratePdf.process_paragraph p) []
            = match paragraph_raises (GeneratePdf.clean_text (strip line)) with
              | Some e => inl e
              | None =>
                  inr (GeneratePdf.NameOrJobTitle,
                       [Paragraph (GeneratePdf.clean_text (strip line))
                          (if contains (lit "@") (strip line)
                           then CustomBoldCenter 12 TA_CENTER
                           else CustomBoldCenter 10 TA_LEFT)])
              end).
  { intros R.
    rewrite (process_paragraph_chain p [] NE' (pdf_is_header_value NE')).
    rewrite Htext. destruct (paragraph_raises _); [reflexivity |].
    unfold branch_of_chain. change (first_run_bold p) with true.
    rewrite Hlen, Hat, Hp.
    destruct (header_value _), (contains (lit "@") (strip line));
      reflexivity. }
  split; [exact (Hall parses_all) | exact Hall].
Qed.

(** X10: the header branch of the DOCX-to-PDF loop is only ever taken by a
    paragraph that the text-to-DOCX loop wrote for a [Bullet] or a [Body]
    line: a [Title], [Contact], [SectionHeader] or [JobTitle] line (all
    bold) and a [Blank] line never get the header style in the PDF. *)
Theorem pdf_header_only_from_plain_lines
  (line : str) (i : nat) (r : Role) (p : Docx.Paragraph) :
  classify line i = inr r ->
  paragraph_of line i = inr [p] ->
  GeneratePdf.classify_paragraph p = inr GeneratePdf.SectionHeaderStyle ->
  r = Bullet \/ r = Body.
Proof.
  intros Hc Hp Hb.
  rewrite classify_role_at in Hc. injection Hc as Hr.
  rewrite paragraph_of_at in Hp. injection Hp as <-.
  destruct (classify_paragraph_total (paragraph_at line i)) as [b [Hb' Hbold]].
  rewrite Hb in Hb'. injection Hb' as <-. specialize (Hbold eq_refl).
  unfold paragraph_at in *. rewrite Hr in *.
  destruct r; try discriminate Hbold; auto.
  exfalso. unfold GeneratePdf.classify_paragraph, evalStateT in Hb.
  cbn [paragraph_of_role] in Hb.
  rewrite process_paragraph_blank in Hb by reflexivity. discriminate.
Qed.

End PdfStyles.

Lemma job_title_line_in_pdf_witness :
  exists p,
    paragraph_of (lit "Senior Engineer | TechCorp | SF") 5 = inr [p] /\
    runStateT (GeneratePdf.process_paragraph (R := parses_all) p) []
    = inr (GeneratePdf.NameOrJobTitle,
           [Paragraph (lit "Senior Engineer | TechCorp | SF")
              (CustomBoldCenter 10 TA_LEFT)]).
Proof.
  destruct (@job_title_line_in_pdf latin1
              (lit "Senior Engineer | TechCorp | SF") 5)
    as [p [Hp [Hrun _]]]; [reflexivity | vm_compute; lia |].
  exists p. split; [exact Hp | exact Hrun].
Defined.

Lemma pdf_header_only_from_plain_lines_witness :
  Bullet = Bullet \/ Bullet = Body.
Proof.
  apply (@pdf_header_only_from_plain_lines latin1 (lit "- Managed team") 5
           Bullet
           (mkParagraph (Some (lit "List Bullet")) None
              [mkRun (lit "Managed team") None None] (Some 3)));
    reflexivity.
Defined.

Lemma text_to_pdf_witness :
  exists roles doc branches story,
    convert_text (L := accepts_all) [65; 10; 10; 66]%N = inr (roles, doc) /\
    runStateT (GeneratePdf.for_paragraphs (R := parses_all) doc) []
    = inr (branches, story).
Proof.
  apply (proj1 (@text_to_pdf_one_flowable_per_line latin1 accepts_all
                  parses_all [65; 10; 10; 66]%N)).
  intros k line Hk. split.
  - apply accepts_all_refusal.
  - unfold pdf_refusal. now destruct (truthy _).
Defined.

Lemma one_flowable_per_paragraph_witness :
  exists branches story,
    runStateT (GeneratePdf.for_paragraphs (R := parses_all)
                 [mkParagraph None None [] None]) []
    = inr (branches, story).
Proof.
  apply (proj1 (proj1 (@one_flowable_per_paragraph latin1 parses_all
                         [mkParagraph None None [] None]))).
  intros para Hin. unfold pdf_refusal. now destruct (truthy _).
Defined.

Section HeaderAfterCleaning.
Context {U : UnicodeData} {R : PdfLibrary}.
Hypothesis dash_like_caseless : forall c, In c dash_like -> caseless c.

Lemma cleaned_away_dash_like (c : char) :
  cleaned_away c = true -> In c dash_like.
Proof.
  unfold cleaned_away, dash_like. intros Hc.
  repeat (apply orb_true_iff in Hc as [Hc | Hc]);
    apply N.eqb_eq in Hc; subst c; cbn [In]; tauto.
Qed.

Lemma dash_case (c : char) :
  Py_UNICODE_ISUPPER (dash c) = Py_UNICODE_ISUPPER c /\
  Py_UNICODE_ISLOWER (dash c) = Py_UNICODE_ISLOWER c /\
  Py_UNICODE_ISTITLE (dash c) = Py_UNICODE_ISTITLE c.
Proof.
  unfold dash. destruct (cleaned_away c) eqn:Hc; [| auto].
  destruct (dash_like_caseless (cleaned_away_dash_like c Hc))
    as [-> [-> ->]].
  destruct (@dash_like_caseless 45%N ltac:(cbn [In dash_like]; tauto))
    as [-> [-> ->]].
  auto.
Qed.

Lemma existsb_map_dash (f : char -> bool) (l : str) :
  (forall c, f (dash c) = f c) ->
  existsb f (List.map dash l) = existsb f l.
Proof.
  intros Hf. induction l as [| c l IH]; simpl; [reflexivity |].
  now rewrite Hf, IH.
Qed.

Lemma isupper_map_dash (l : str) : isupper (List.map dash l) = isupper l.
Proof.
  destruct l as [| c1 [| c2 l]]; [reflexivity | apply dash_case |].
  change (List.map dash (c1 :: c2 :: l))
    with (dash c1 :: dash c2 :: List.map dash l).
  cbv beta iota delta [isupper].
  change (dash c1 :: dash c2 :: List.map dash l)
    with (List.map dash (c1 :: c2 :: l)).
  rewrite !existsb_map_dash; [reflexivity | apply dash_case |].
  intros c. destruct (dash_case c) as [_ [-> ->]]. reflexivity.
Qed.

Lemma is_header_map_dash (l : str) :
  GeneratePdf.is_header (List.map dash l) = GeneratePdf.is_header l.
Proof.
  destruct l as [| c s]; [reflexivity |].
  unfold GeneratePdf.is_header.
  rewrite isupper_map_dash.
  replace (len (List.map dash (c :: s))) with (len (c :: s))
    by (unfold len; now rewrite length_map).
  rewrite (contains_map_dash (kw := lit "|")) by dash_free.
  repeat match goal with
  | |- context [startswith (List.map dash ?l) ?kw] =>
      rewrite (@startswith_map_dash kw ltac:(dash_free) l)
  end.
  cbn [List.map getitem0 bind ret Monad_either isupper].
  destruct (dash_case c) as [-> _]. reflexivity.
Qed.

(** X11: where the tables give no case to the hyphen, the bullet, the em
    dash and the en dash, cleaning a text does not change the outcome of
    the header test (its value, or the [IndexError] on the empty text):
    both PDF loops, which clean before they test, decide as the
    text-to-DOCX loop does on that text. *)
Theorem header_test_survives_cleaning (text : str) :
  GeneratePdf.is_header (GeneratePdf.clean_text text)
  = GeneratePdf.is_header text /\
  GeneratePdf.is_header (GeneratePdf.clean_text text)
  = GenerateDocx.is_header text.
Proof.
  rewrite clean_text_map, is_header_map_dash. split; reflexivity.
Qed.

(** X12: under the same condition on the tables, the header branch of the
    DOCX-to-PDF loop is only ever taken by a paragraph that the
    text-to-DOCX loop wrote for a [Bullet] line: the header style of the
    PDF never goes to a line that was a header, a title, a contact line, a
    job title or body text in the DOCX. *)
Theorem pdf_header_only_from_bullets
  (line : str) (i : nat) (r : Role) (p : Docx.Paragraph) :
  classify line i = inr r ->
  paragraph_of line i = inr [p] ->
  GeneratePdf.classify_paragraph p = inr GeneratePdf.SectionHeaderStyle ->
  r = Bullet.
Proof.
  intros Hc Hp Hb.
  rewrite classify_role_at in Hc. injection Hc as Hr.
  rewrite paragraph_of_at in Hp. injection Hp as <-.
  destruct (pdf_header_branch _ Hb) as [Hh Hbold].
  unfold paragraph_at in *. rewrite Hr in *.
  destruct r; try discriminate Hbold; try reflexivity.
  - exfalso. cbn [paragraph_of_role paragraph_text runs flat_map text] in Hh.
    rewrite app_nil_r, strip_idem, clean_text_map, is_header_map_dash in Hh.
    assert (NE : strip line <> [])
      by (apply (role_at_nonblank line i); rewrite Hr; discriminate).
    change (GenerateDocx.is_header (strip line) = inr true) in Hh.
    unfold role_at in Hr. destruct (strip line) eqn:E; [congruence |].
    cbn [truthy] in Hr. unfold role_of_chain, header_value in Hr.
    rewrite Hh in Hr.
    repeat match type of Hr with
    | (if ?t then _ else _) = _ => destruct t
    end; discriminate.
  - discriminate Hh.
Qed.

(** One run of the body of the fallback loop: reportlab refuses the
    cleaned line, or the flowable of the line is appended. *)
Lemma process_text_line_run (line : str) (story : Story) :
  runStateT (GeneratePdf.process_text_line line) story
  = match pdf_refusal (GeneratePdf.clean_text (strip line)) with
    | Some e => inl e
    | None =>
        inr (tt, story ++ [text_flowable line (header_value (strip line))])
    end.
Proof.
  unfold GeneratePdf.process_text_line, text_flowable, pdf_refusal.
  destruct (strip line) as [| c s] eqn:E; [reflexivity |].
  rewrite clean_text_map, is_header_map_dash.
  cbn [List.map truthy negb].
  change (dash c :: List.map dash s) with (List.map dash (c :: s)).
  change (GeneratePdf.is_header (c :: s)) with (is_header (c :: s)).
  rewrite (is_header_value (l := c :: s)) by discriminate.
  cbn [runStateT bind lift MonadT_stateT Monad_stateT Monad_either ret].
  unfold new_paragraph.
  destruct (header_value (c :: s)), (paragraph_raises (List.map dash (c :: s)));
    reflexivity.
Qed.

Lemma for_text_lines_run (lines : list str) (story : Story) :
  runStateT (GeneratePdf.for_text_lines lines) story
  = match first_pdf_refusal
            (List.map (fun line => GeneratePdf.clean_text (strip line)) lines)
    with
    | Some e => inl e
    | None =>
        inr (tt,
             story ++
             List.map (fun line =>
                         text_flowable line (header_value (strip line)))
                      lines)
    end.
Proof.
  revert story. induction lines as [| line rest IH]; intros story.
  - simpl. now rewrite app_nil_r.
  - cbn [GeneratePdf.for_text_lines List.map first_pdf_refusal].
    cbn [runStateT bind Monad_stateT Monad_either].
    rewrite process_text_line_run.
    destruct (pdf_refusal (GeneratePdf.clean_text (strip line)));
      [reflexivity |].
    rewrite IH. destruct (first_pdf_refusal _); [reflexivity |].
    now rewrite <- app_assoc.
Qed.

(** X13: under the same condition on the tables, the fallback loop of
    [create_simple_pdf_from_text] returns exactly when reportlab refuses
    the cleaned text of no line.  Where it returns, it has appended one
    flowable per line, in order: the spacer for a blank line, and for every
    other line a paragraph with the cleaned, stripped text, in the style
    [Heading2] exactly when the stripped line passes the header test of the
    text-to-DOCX loop, and in the style [Normal] otherwise.  Where it
    raises, the exception is the one of reportlab for the cleaned text of
    one of the lines, and nothing else raises. *)
Theorem fallback_one_flowable_per_line (lines : list str) :
  ((forall line, In line lines ->
                 pdf_refusal (GeneratePdf.clean_text (strip line)) = None) <->
   exists flowables,
     runStateT (GeneratePdf.for_text_lines lines) [] = inr (tt, flowables)) /\
  match runStateT (GeneratePdf.for_text_lines lines) [] with
  | inr (_, flowables) =>
      List.length flowables = List.length lines /\
      Forall2 (fun line x =>
                 exists header,
                   (strip line <> [] ->
                    GenerateDocx.is_header (strip line) = inr header) /\
                   x = text_flowable line header)
              lines flowables
  | inl e =>
      exists line,
        In line lines /\
        GeneratePdf.clean_text (strip line) <> [] /\
        paragraph_raises (GeneratePdf.clean_text (strip line)) = Some e
  end.
Proof.
  rewrite for_text_lines_run.
  set (texts := List.map (fun line => GeneratePdf.clean_text (strip line))
                         lines).
  pose proof (first_pdf_refusal_none texts) as Hnone.
  destruct (first_pdf_refusal texts) as [e |] eqn:E.
  - split.
    + split.
      * intros Hall. assert (Some e = None); [| discriminate].
        apply Hnone. intros t Hin.
        apply in_map_iff in Hin as [line [<- Hin]]. auto.
      * intros [flowables Hrun]. discriminate.
    + apply first_pdf_refusal_witness in E as [t [Hin Ht]].
      apply in_map_iff in Hin as [line [<- Hin]].
      exists line. split; [exact Hin |].
      unfold pdf_refusal in Ht.
      destruct (GeneratePdf.clean_text (strip line));
        [discriminate | split; [discriminate | exact Ht]].
  - split.
    + split; [eauto |]. intros _ line Hin. apply Hnone; [reflexivity |].
      apply in_map_iff. eauto.
    + cbn [app]. rewrite length_map. split; [reflexivity |].
      clear. induction lines as [| line rest IH]; constructor; [| exact IH].
      exists (header_value (strip line)). split; [| reflexivity].
      intros NE. now apply is_header_value.
Qed.

End HeaderAfterCleaning.

Lemma latin1_dash_like_caseless :
  forall c, In c dash_like -> caseless (U := latin1) c.
Proof.
  intros c Hc. unfold dash_like in Hc. cbn [In] in Hc.
  repeat match goal with
  | Hor : _ \/ _ |- _ => destruct Hor as [<- | Hor]
  end; try contradiction; repeat split.
Qed.

Lemma header_test_survives_cleaning_witness :
  GeneratePdf.is_header
    (GeneratePdf.clean_text ([8226; 32]%N ++ lit "Built pipelines"))
  = GeneratePdf.is_header ([8226; 32]%N ++ lit "Built pipelines") /\
  GeneratePdf.is_header
    (GeneratePdf.clean_text ([8226; 32]%N ++ lit "Built pipelines"))
  = GenerateDocx.is_header ([8226; 32]%N ++ lit "Built pipelines").
Proof.
  exact (@header_test_survives_cleaning latin1 latin1_dash_like_caseless
           ([8226; 32]%N ++ lit "Built pipelines")).
Defined.

Lemma pdf_header_only_from_bullets_witness :
  classify (lit "- Managed team") 5 = inr Bullet /\ Bullet = Bullet.
Proof.
  split; [reflexivity |].
  apply (@pdf_header_only_from_bullets latin1 latin1_dash_like_caseless
           (lit "- Managed team") 5 Bullet
           (mkParagraph (Some (lit "List Bullet")) None
              [mkRun (lit "Managed team") None None] (Some 3)));
    reflexivity.
Defined.

Lemma fallback_one_flowable_per_line_witness :
  exists flowables,
    runStateT (GeneratePdf.for_text_lines (R := parses_all)
                 [lit "SKILLS"; []; lit "python"]) []
    = inr (tt, flowables).
Proof.
  apply (proj1 (proj1 (@fallback_one_flowable_per_line latin1 parses_all
                         latin1_dash_like_caseless
                         [lit "SKILLS"; []; lit "python"]))).
  intros line Hin. unfold pdf_refusal. now destruct (truthy _).
Defined.

(** ** Further properties of the file names *)

Section MoreFileNames.

Lemma replace_absent (old new s : str) :
  old <> [] -> contains old s = false -> replace old new s = s.
Proof.
  intros NE. unfold replace. destruct old as [| o old']; [congruence |].
  induction s as [| c s IH]; [reflexivity |].
  cbn [contains replace_from]. intros Hc.
  apply orb_false_iff in Hc as [Hs Hc]. rewrite Hs. f_equal. auto.
Qed.

(** X14: where the extension occurs in the name at its end only, the names
    are derived by substituting the extension, and the text file of the
    fallback of [generate_pdf.py] is the file the DOCX was made from. *)
Theorem names_with_one_extension (stem : str) :
  only_at_end (lit ".txt") stem ->
  only_at_end (lit ".docx") stem ->
  docx_file_name (stem ++ lit ".txt") = stem ++ lit ".docx" /\
  GeneratePdf.pdf_file_name (stem ++ lit ".docx") = stem ++ lit ".pdf" /\
  GeneratePdf.fallback_text_file (docx_file_name (stem ++ lit ".txt"))
  = stem ++ lit ".txt".
Proof.
  intros Ht Hd.
  assert (E : docx_file_name (stem ++ lit ".txt") = stem ++ lit ".docx")
    by (apply replace_only_suffix; [discriminate | exact Ht]).
  split; [exact E |]. split.
  - apply replace_only_suffix; [discriminate | exact Hd].
  - rewrite E. apply replace_only_suffix; [discriminate | exact Hd].
Qed.

(** X15: a name that does not contain the extension is left as it is: the
    output file of a conversion is then the input file itself. *)
Theorem name_without_extension_is_kept (file : str) :
  (contains (lit ".txt") file = false -> docx_file_name file = file) /\
  (contains (lit ".docx") file = false ->
   GeneratePdf.pdf_file_name file = file /\
   GeneratePdf.fallback_text_file file = file).
Proof.
  split; [| split]; apply replace_absent; try discriminate; assumption.
Qed.

End MoreFileNames.

Lemma names_with_one_extension_witness :
  docx_file_name (lit "resume-ada" ++ lit ".txt")
  = lit "resume-ada" ++ lit ".docx" /\
  GeneratePdf.pdf_file_name (lit "resume-ada" ++ lit ".docx")
  = lit "resume-ada" ++ lit ".pdf" /\
  GeneratePdf.fallback_text_file
    (docx_file_name (lit "resume-ada" ++ lit ".txt"))
  = lit "resume-ada" ++ lit ".txt".
Proof.
  apply (@names_with_one_extension (lit "resume-ada"));
    intros k Hk; do 10 (destruct k as [| k]; [reflexivity |]);
    simpl in Hk; lia.
Defined.

Lemma name_without_extension_witness :
  docx_file_name (lit "resume-ada.TXT") = lit "resume-ada.TXT".
Proof.
  apply (proj1 (name_without_extension_is_kept (lit "resume-ada.TXT"))).
  reflexivity.
Defined.

(** ** Further properties of the text of a file *)

Section Lines.
Context {U : UnicodeData} {L : DocxLibrary}.

Lemma split_trailing (sep : char) (s : str) :
  split sep (s ++ [sep]) = split sep s ++ [[]].
Proof.
  induction s as [| c s IH].
  - simpl. now rewrite N.eqb_refl.
  - cbn [app split]. rewrite IH.
    destruct (c =? sep)%N; [reflexivity |].
    pose proof (split_not_nil sep s) as NE.
    destruct (split sep s); [contradiction | reflexivity].
Qed.

Lemma paragraphs_from_app (l1 l2 : list str) :
  forall i, paragraphs_from i (l1 ++ l2)
            = paragraphs_from i l1
              ++ paragraphs_from (i + List.length l1) l2.
Proof.
  induction l1 as [| l l1 IH]; intros i; simpl.
  - now rewrite Nat.add_0_r.
  - rewrite IH. do 3 f_equal. lia.
Qed.

Lemma convert_text_count (content : str) (roles : list Role)
  (doc : Document) :
  convert_text content = inr (roles, doc) ->
  List.length doc = S (count_occ N.eq_dec content 10%N) /\
  List.length roles = List.length doc.
Proof.
  unfold convert_text. rewrite for_lines_run. cbn [app]. intros Hrun.
  destruct (first_refusal 0 (split 10%N content)); [discriminate |].
  injection Hrun as <- <-. split.
  - rewrite paragraphs_from_length. apply split_count.
  - now rewrite roles_from_length, paragraphs_from_length.
Qed.

(** X16: where the conversion of a text returns (python-docx accepts the
    run of every line), the DOCX has one paragraph more than the text has
    line breaks, and a text that ends with a line break gives an empty
    paragraph at the end.  The conversion of an empty file always returns,
    with one empty paragraph: a blank line gets no run. *)
Theorem paragraphs_count_line_breaks (content : str) :
  convert_text [] = inr ([Blank], [mkParagraph None None [] None]) /\
  forall roles doc,
    convert_text content = inr (roles, doc) ->
    List.length doc = S (count_occ N.eq_dec content 10%N) /\
    List.length roles = List.length doc /\
    (forall s, content = s ++ [10%N] ->
               last doc (mkParagraph None None [mkRun [] None None] None)
               = mkParagraph None None [] None).
Proof.
  split; [reflexivity |].
  unfold convert_text. rewrite for_lines_run. cbn [app].
  intros roles doc Hrun.
  destruct (first_refusal 0 (split 10%N content)); [discriminate |].
  injection Hrun as <- <-. split; [| split].
  - rewrite paragraphs_from_length. apply split_count.
  - now rewrite roles_from_length, paragraphs_from_length.
  - intros s ->. rewrite split_trailing, paragraphs_from_app.
    cbn [paragraphs_from]. rewrite last_last. reflexivity.
Qed.

End Lines.

Lemma paragraphs_count_line_breaks_witness :
  exists doc : Document,
    List.length doc = S (count_occ N.eq_dec (lit "Ada" ++ [10%N]) 10%N).
Proof.
  eexists.
  refine (proj1 (proj2 (@paragraphs_count_line_breaks latin1 xml_strict
                          (lit "Ada" ++ [10%N])) _ _ _)).
  reflexivity.
Defined.

(** ** Further properties of the batch drivers *)

Section Reports.
Context {U : UnicodeData} {L : DocxLibrary} {R : PdfLibrary} {H : Host}.

Lemma printed_app (tr1 tr2 : Trace) :
  printed (tr1 ++ tr2) = printed tr1 ++ printed tr2.
Proof.
  induction tr1 as [| ev tr1 IH]; simpl; [reflexivity |].
  destruct ev; simpl; now rewrite IH.
Qed.

Lemma refusal_raises (line : str) (i : nat) (e : Exception) :
  refusal line i = Some e -> exists t, add_run_raises t = Some e.
Proof.
  unfold refusal. destruct (role_at line i); intros Hr;
    try discriminate Hr; eauto.
Qed.

Lemma convert_text_raises (content : str) (e : Exception) :
  convert_text content = inl e -> exists t, add_run_raises t = Some e.
Proof.
  unfold convert_text. rewrite for_lines_run.
  destruct (first_refusal 0 (split 10%N content)) as [e0 |] eqn:E;
    [| discriminate].
  intros [= <-].
  apply first_refusal_witness in E as [k [line [_ Hr]]].
  exact (refusal_raises _ _ Hr).
Qed.

(** X17: [create_docx_from_text] returns, with the substituted name,
    exactly when the read, the runs of all lines and the save succeed; it
    has then read the file once, saved once the document of its text (one
    paragraph more than the text has line breaks) under that name, and
    printed the line ["Created: ..."] last.  When it raises, the exception
    is the one of the read, and nothing was saved; or the one python-docx
    raises for the run of a line, and nothing was saved nor printed; or
    the one of the save, and nothing was printed. *)
Theorem create_docx_outcome (f : str) (tr : Trace) :
  match run (create_docx_from_text f) tr with
  | (inr name, tr') =>
      name = docx_file_name f /\
      exists content roles doc,
        read_text tr f = inr content /\
        convert_text content = inr (roles, doc) /\
        List.length doc = S (count_occ N.eq_dec content 10%N) /\
        docx_save (tr ++ [ReadText f]) name doc = inr tt /\
        tr' = tr ++ [ReadText f; SaveDocx name doc;
                     Print (lit "Created: " ++ name)]
  | (inl e, tr') =>
      (read_text tr f = inl e /\ tr' = tr ++ [ReadText f]) \/
      (exists content,
         read_text tr f = inr content /\
         convert_text content = inl e /\
         (exists t, add_run_raises t = Some e) /\
         tr' = tr ++ [ReadText f]) \/
      (exists content roles doc,
         read_text tr f = inr content /\
         convert_text content = inr (roles, doc) /\
         docx_save (tr ++ [ReadText f]) (docx_file_name f) doc = inl e /\
         tr' = tr ++ [ReadText f; SaveDocx (docx_file_name f) doc])
  end.
Proof.
  unfold create_docx_from_text.
  rewrite run_bind, run_call.
  destruct (read_text tr f) as [e | content] eqn:Hr.
  - left. split; reflexivity.
  - rewrite run_bind, run_pure.
    pose proof (@convert_text_raises content) as Hraise.
    destruct (convert_text content) as [e | [roles doc]] eqn:Hc.
    + right. left. exists content. split; [reflexivity |].
      split; [exact Hc |].
      split; [exact (Hraise e eq_refl) | reflexivity].
    + cbn [snd]. rewrite run_bind, run_call.
      destruct (docx_save _ _ _) as [e | []] eqn:Hs.
      * right. right. exists content, roles, doc.
        split; [reflexivity |]. split; [exact Hc |].
        split; [exact Hs |]. now rewrite <- app_assoc.
      * rewrite run_bind, run_print, run_ret.
        split; [reflexivity |].
        exists content, roles, doc.
        split; [reflexivity |]. split; [exact Hc |].
        split; [exact (proj1 (@convert_text_count _ _ _ _ _ Hc)) |].
        split; [exact Hs |]. now rewrite <- !app_assoc.
Qed.

Lemma create_docx_printed (f : str) (tr : Trace) :
  match run (create_docx_from_text f) tr with
  | (inr _, tr') =>
      printed tr' = printed tr ++ [lit "Created: " ++ docx_file_name f]
  | (inl _, tr') => printed tr' = printed tr
  end.
Proof.
  unfold create_docx_from_text.
  rewrite run_bind, run_call.
  destruct (read_text tr f) as [e | content].
  - rewrite printed_app. cbn. now rewrite app_nil_r.
  - rewrite run_bind, run_pure.
    destruct (convert_text content) as [e | built].
    + rewrite printed_app. cbn. now rewrite app_nil_r.
    + rewrite run_bind, run_call.
      destruct (docx_save _ _ _) as [e | []].
      * rewrite !printed_app. cbn. now rewrite !app_nil_r.
      * rewrite run_bind, run_print, run_ret.
        rewrite !printed_app. cbn. now rewrite !app_nil_r.
Qed.

Lemma docx_convert_one_printed (f : str) (tr : Trace) :
  exists msg tr1,
    run (GenerateDocx.convert_one f) tr = (inr tt, tr1) /\
    printed tr1 = printed tr ++ [msg] /\
    docx_report f msg.
Proof.
  rewrite docx_convert_one_run.
  pose proof (create_docx_printed f tr) as Hp.
  destruct (run (create_docx_from_text f) tr) as [[e | name] tr'].
  - eexists _, _. split; [reflexivity |]. split.
    + rewrite printed_app, Hp. cbn. reflexivity.
    + right. exists e. reflexivity.
  - eexists _, _. split; [reflexivity |]. split.
    + exact Hp.
    + left. reflexivity.
Qed.

Lemma docx_for_files_printed (files : list str) :
  forall tr : Trace,
    exists msgs,
      printed (snd (run (GenerateDocx.for_files files) tr))
      = printed tr ++ msgs /\
      Forall2 docx_report files msgs.
Proof.
  induction files as [| f rest IH]; intros tr.
  - exists []. split; [cbn; now rewrite app_nil_r | constructor].
  - cbn [GenerateDocx.for_files]. rewrite run_bind.
    destruct (docx_convert_one_printed f tr) as [msg [tr1 [-> [Hp Hr]]]].
    destruct (IH tr1) as [msgs [Hps Hf]].
    exists (msg :: msgs). split; [| constructor; assumption].
    rewrite Hps, Hp, <- app_assoc. reflexivity.
Qed.

(** X18: [generate_docx.py] reports every discovered file exactly once and
    in order: after the line that counts the files, it prints one line per
    file, ["Created: ..."] with the name of the DOCX or ["Error converting
    ...: ..."] with the name of the text file.  With no file it prints the
    one line ["No resume text files found!"] and reads nothing. *)
Theorem docx_main_reports_each_file (tr : Trace) :
  let files := sorted_glob tr (lit "resume-*.txt") in
  let tr' := snd (run GenerateDocx.main tr) in
  match files with
  | [] =>
      printed tr' = printed tr ++ [lit "No resume text files found!"] /\
      texts_read tr' = texts_read tr
  | _ :: _ =>
      exists msgs,
        printed tr'
        = printed tr
          ++ [lit "Found " ++ str_of_nat (List.length files)
                ++ lit " text files to convert..."]
          ++ msgs /\
        Forall2 docx_report files msgs
  end.
Proof.
  cbv zeta. unfold GenerateDocx.main. rewrite run_bind, run_call.
  destruct (sorted_glob tr (lit "resume-*.txt")) as [| f rest] eqn:E.
  - rewrite run_print. cbn [snd].
    rewrite !printed_app, !texts_read_app. cbn.
    now rewrite !app_nil_r.
  - rewrite run_bind, run_print.
    match goal with
    | |- context [run (GenerateDocx.for_files ?l) ?t] =>
        destruct (docx_for_files_printed l t) as [msgs [Hp Hf]]
    end.
    exists msgs. split; [| exact Hf].
    rewrite Hp, !printed_app. cbn. now rewrite app_nil_r, <- app_assoc.
Qed.

Lemma convert_docx_printed (f pdf_file : str) (tr : Trace) :
  match run (GeneratePdf.convert_docx f pdf_file) tr with
  | (inr x, tr') =>
      x = Some pdf_file /\
      printed tr' = printed tr ++ [lit "Created: " ++ pdf_file]
  | (inl _, tr') => printed tr' = printed tr
  end.
Proof.
  unfold GeneratePdf.convert_docx.
  rewrite run_bind, run_call.
  destruct (docx_load tr f) as [e | doc].
  - rewrite printed_app. cbn. now rewrite app_nil_r.
  - rewrite run_bind, run_pure.
    destruct (execStateT _ _) as [e | story].
    + rewrite printed_app. cbn. now rewrite app_nil_r.
    + rewrite run_bind, run_call.
      destruct (pdf_build _ _ _) as [e | []].
      * rewrite !printed_app. cbn. now rewrite !app_nil_r.
      * rewrite run_bind, run_print, run_ret.
        split; [reflexivity |].
        rewrite !printed_app. cbn. now rewrite !app_nil_r.
Qed.

Lemma simple_pdf_printed (text_file pdf_file : str) (tr : Trace) :
  match run (GeneratePdf.create_simple_pdf_from_text text_file pdf_file) tr
  with
  | (inr _, tr') =>
      printed tr' = printed tr ++ [lit "Created (from text): " ++ pdf_file]
  | (inl _, tr') => printed tr' = printed tr
  end.
Proof.
  unfold GeneratePdf.create_simple_pdf_from_text.
  rewrite run_bind, run_call.
  destruct (read_text tr text_file) as [e | content].
  - rewrite printed_app. cbn. now rewrite app_nil_r.
  - rewrite run_bind, run_pure.
    destruct (execStateT _ _) as [e | story].
    + rewrite printed_app. cbn. now rewrite app_nil_r.
    + rewrite run_bind, run_call.
      destruct (pdf_build _ _ _) as [e | []].
      * rewrite !printed_app. cbn. now rewrite !app_nil_r.
      * rewrite run_print.
        rewrite !printed_app. cbn. now rewrite !app_nil_r.
Qed.


Lemma create_pdf_report (f : str) (tr : Trace) :
  exists x tr' msgs,
    run (GeneratePdf.create_pdf_from_docx f) tr = (inr x, tr') /\
    printed tr' = printed tr ++ msgs /\
    pdf_report f msgs.
Proof.
  rewrite create_pdf_run.
  pose proof (convert_docx_printed f (GeneratePdf.pdf_file_name f) tr) as Hc.
  destruct (run (GeneratePdf.convert_docx f (GeneratePdf.pdf_file_name f)) tr)
    as [[e | x] tr1].
  - match goal with
    | |- context [run ?c ?t] =>
        pose proof (simple_pdf_printed (GeneratePdf.fallback_text_file f)
                      (GeneratePdf.pdf_file_name f) t) as Hs;
        destruct (run c t) as [[e2 | []] tr2]
    end; rewrite printed_app, Hc in Hs; cbn [printed app] in Hs.
    + eexists _, _, _. split; [reflexivity |]. split.
      * rewrite printed_app, Hs. cbn [printed]. rewrite <- app_assoc.
        reflexivity.
      * right. exists e. right. exists e2. reflexivity.
    + eexists _, _, _. split; [reflexivity |]. split.
      * rewrite Hs, <- app_assoc. reflexivity.
      * right. exists e. left. reflexivity.
  - destruct Hc as [-> Hp].
    eexists _, _, _. split; [reflexivity |]. split; [exact Hp |].
    left. reflexivity.
Qed.

Lemma pdf_for_files_printed (files : list str) :
  forall tr : Trace,
    exists reports,
      printed (snd (run (GeneratePdf.for_files files) tr))
      = printed tr ++ List.concat reports /\
      Forall2 pdf_report files reports.
Proof.
  induction files as [| f rest IH]; intros tr.
  - exists []. split; [cbn; now rewrite app_nil_r | constructor].
  - cbn [GeneratePdf.for_files]. rewrite run_bind.
    unfold GeneratePdf.convert_one. rewrite run_catch, run_bind.
    destruct (create_pdf_report f tr) as [x [tr1 [msgs [-> [Hp Hr]]]]].
    rewrite run_ret.
    destruct (IH tr1) as [reports [Hps Hf]].
    exists (msgs :: reports). split; [| constructor; assumption].
    rewrite Hps, Hp, <- app_assoc. reflexivity.
Qed.

(** X20: [generate_pdf.py] reports every discovered DOCX file in order:
    after the line that counts the files, it prints for each file either
    the one line ["Created: ..."], or the failure with the name of the
    file followed by the one line of the fallback; the handler of [main]
    prints nothing, since [create_pdf_from_docx] never raises.  With no
    file it prints the one line ["No DOCX files found!"] and loads
    nothing. *)
Theorem pdf_main_reports_each_file (tr : Trace) :
  let files := sorted_glob tr (lit "resume-*.docx") in
  let tr' := snd (run GeneratePdf.main tr) in
  match files with
  | [] =>
      printed tr' = printed tr ++ [lit "No DOCX files found!"] /\
      docx_loaded tr' = docx_loaded tr /\
      texts_read tr' = texts_read tr
  | _ :: _ =>
      exists reports,
        printed tr'
        = printed tr
          ++ [lit "Found " ++ str_of_nat (List.length files)
                ++ lit " DOCX files to convert..."]
          ++ List.concat reports /\
        Forall2 pdf_report files reports
  end.
Proof.
  cbv zeta. unfold GeneratePdf.main. rewrite run_bind, run_call.
  destruct (sorted_glob tr (lit "resume-*.docx")) as [| f rest] eqn:E.
  - rewrite run_print. cbn [snd].
    rewrite !printed_app, !texts_read_app, !docx_loaded_app. cbn.
    now rewrite !app_nil_r.
  - rewrite run_bind, run_print.
    match goal with
    | |- context [run (GeneratePdf.for_files ?l) ?t] =>
        destruct (pdf_for_files_printed l t) as [reports [Hp Hf]]
    end.
    exists reports. split; [| exact Hf].
    rewrite Hp, !printed_app. cbn. now rewrite app_nil_r, <- app_assoc.
Qed.

End Reports.
